(** * GodlyKids voice-cloning service: [ai-service/main.py] and
      [ai-service/patch_transformers.py]

    A shallow embedding of the two Python modules.  The request handlers
    are written in a small exception-and-state monad over a [world] that
    holds the module global [tts_model], the filesystem, standard output
    and a trace of the library calls that were made.  Everything the
    program obtains from outside (torch's capability probes, the TTS
    library, tempfile's name generator, I/O faults) is a field of [Env]. *)

From Stdlib Require Import String Ascii List Bool Arith Lia.
From Stdlib Require Import Strings.Byte.
From stdpp Require Import base gmap strings list fin_maps pretty.
Import ListNotations.
Local Open Scope string_scope.

(** ** Python values that the service manipulates *)

Abbreviation bytes := (list byte).

(** An exception object.  [Exception_ cls msg] is an instance of a subclass
    [cls] of [Exception] with [str(e) = msg]; [HTTPException] is FastAPI's
    (itself a subclass of [Exception]). *)
Inductive exn : Type :=
| Exception_ (cls : string) (msg : string)
| HTTPException (status_code : nat) (detail : string).

(** [str(e)].  Starlette's [HTTPException.__str__] is
    [f"{status_code}: {detail}"]. *)
Definition str (e : exn) : string :=
  match e with
  | Exception_ _ msg => msg
  | HTTPException c d => pretty c ++ ": " ++ d
  end.

(** [repr(s)] for a [str], as [OSError.__str__] formats a filename.  The
    quote is the apostrophe, unless [s] holds an apostrophe and no double
    quote; the quote and the backslash are escaped, tab, newline and
    carriage return are written [\t], [\n], [\r], the other control
    characters and DEL as [\xhh].  Bytes from 128 on, which here are the
    UTF-8 encoding of printable characters, are kept. *)
Definition apostrophe : ascii := "'"%char.
Definition double_quote : ascii := "034"%char.
Definition backslash : ascii := "\"%char.

Definition hex_digit (n : nat) : ascii :=
  match n with
  | 0 => "0" | 1 => "1" | 2 => "2" | 3 => "3" | 4 => "4" | 5 => "5"
  | 6 => "6" | 7 => "7" | 8 => "8" | 9 => "9" | 10 => "a" | 11 => "b"
  | 12 => "c" | 13 => "d" | 14 => "e" | _ => "f"
  end%char.

Fixpoint occurs (c : ascii) (s : string) : bool :=
  match s with
  | EmptyString => false
  | String x rest => Ascii.eqb x c || occurs c rest
  end.

Definition repr_char (quote c : ascii) : string :=
  let n := nat_of_ascii c in
  if Ascii.eqb c quote || Ascii.eqb c backslash then
    String backslash (String c EmptyString)
  else if (n =? 9)%nat then "\t"
  else if (n =? 10)%nat then "\n"
  else if (n =? 13)%nat then "\r"
  else if (n <? 32)%nat || (n =? 127)%nat then
    "\x" ++ String (hex_digit (n / 16)) (String (hex_digit (n mod 16)) EmptyString)
  else String c EmptyString.

Fixpoint repr_chars (quote : ascii) (s : string) : string :=
  match s with
  | EmptyString => EmptyString
  | String c rest => repr_char quote c ++ repr_chars quote rest
  end.

Definition repr (s : string) : string :=
  let quote :=
    if occurs apostrophe s && negb (occurs double_quote s) then double_quote
    else apostrophe in
  String quote (repr_chars quote s ++ String quote EmptyString).

(** [str(e)] of the OSError for ENOENT on [path]:
    [[Errno 2] No such file or directory: ] followed by [repr(path)]. *)
Definition FileNotFoundError (path : string) : exn :=
  Exception_ "FileNotFoundError"
    ("[Errno 2] No such file or directory: " ++ repr path).

Definition FileExistsError_no_name : exn :=
  Exception_ "FileExistsError"
    "[Errno 17] No usable temporary file name found".

(** The outcome of running a piece of Python: it returns or it raises. *)
Inductive outcome (A : Type) : Type :=
| Return (a : A)
| Raise (e : exn).
Arguments Return {A} a.
Arguments Raise {A} e.

(** The object bound to [tts_model] after a successful load: what
    [TTS(...).to(device)] evaluates to.  [obj_bool] is the object's truth
    value ([bool(obj)]), [tts_to_file] the method the handler calls: it may
    write files, and it may raise. *)
Record TTS : Type := {
  obj_bool : bool;
  tts_to_file :
    string (* text *) -> string (* speaker_wav *) -> string (* language *) ->
    string (* file_path *) ->
    gmap string bytes -> outcome unit * gmap string bytes
}.

(** [fastapi.UploadFile]: the name the client gave and the spooled bytes. *)
Record UploadFile : Type := {
  filename : string;
  file : bytes
}.

(** Library calls, as they appear in the trace. *)
Inductive event : Type :=
| EvTTS (model_name : string)
| EvTo (device : string)
| EvNamedTemporaryFile (name : string)
| EvCopyfileobj (dst : string) (data : bytes)
| EvTtsToFile (text speaker_wav language file_path : string)
| EvRead (path : string) (data : bytes)
| EvRemove (path : string).

(** ** The world *)

Record world : Type := {
  tts_model : option TTS;          (* the module global; [None] is Python's None *)
  fs : gmap string bytes;          (* path |-> contents *)
  stdout : list string;            (* lines printed, oldest first *)
  trace : list event               (* library calls, oldest first *)
}.

Definition set_tts_model (m : option TTS) (w : world) : world :=
  {| tts_model := m; fs := fs w; stdout := stdout w; trace := trace w |}.
Definition set_fs (f : gmap string bytes) (w : world) : world :=
  {| tts_model := tts_model w; fs := f; stdout := stdout w; trace := trace w |}.
Definition add_stdout (s : string) (w : world) : world :=
  {| tts_model := tts_model w; fs := fs w; stdout := (stdout w ++ [s])%list;
     trace := trace w |}.
Definition add_trace (e : event) (w : world) : world :=
  {| tts_model := tts_model w; fs := fs w; stdout := stdout w;
     trace := (trace w ++ [e])%list |}.

(** Module initialisation: [tts_model = None]. *)
Definition initial_world (disk : gmap string bytes) : world :=
  {| tts_model := None; fs := disk; stdout := []; trace := [] |}.

(** ** The monad of handler code *)

(** Code that reads and writes a state [S] and may raise. *)
Definition ST (S A : Type) : Type := S -> outcome A * S.

Definition ret {S A} (a : A) : ST S A := fun w => (Return a, w).
Definition raise {S A} (e : exn) : ST S A := fun w => (Raise e, w).
Definition bind {S A B} (m : ST S A) (k : A -> ST S B) : ST S B :=
  fun w => match m w with
           | (Return a, w') => k a w'
           | (Raise e, w') => (Raise e, w')
           end.

(** Handler code runs over the [world]. *)
Definition M (A : Type) : Type := ST world A.

Notation "x <- m ;; k" := (bind m (fun x => k))
  (at level 100, m at next level, k at level 200, right associativity).
Notation "m ;;; k" := (bind m (fun _ => k))
  (at level 100, k at level 200, right associativity).

(** [try: m  except Exception as e: h e] *)
Definition try_except {S A} (m : ST S A) (h : exn -> ST S A) : ST S A :=
  fun w => match m w with
           | (Return a, w') => (Return a, w')
           | (Raise e, w') => h e w'
           end.

(** [with acquire as x: body x], for a context manager whose [__exit__]
    calls [release] and does not swallow the exception. *)
Definition with_ {S R A} (acquire : ST S R) (release : R -> ST S unit)
    (body : R -> ST S A) : ST S A :=
  r <- acquire ;;
  fun w => match body r w with
           | (Return a, w') =>
               match release r w' with
               | (Return _, w'') => (Return a, w'')
               | (Raise e, w'') => (Raise e, w'')
               end
           | (Raise e, w') =>
               match release r w' with
               | (Return _, w'') => (Raise e, w'')
               | (Raise e', w'') => (Raise e', w'')
               end
           end.

Definition get_tts_model : M (option TTS) := fun w => (Return (tts_model w), w).
Definition print (s : string) : M unit := fun w => (Return tt, add_stdout s w).

(** ** Python library functions used by the service *)

(** [posixpath.join(a, b)] *)
Definition path_join (a b : string) : string :=
  if String.prefix "/" b then b
  else if (String.length a =? 0)%nat then b
  else if String.eqb (String.substring (String.length a - 1) 1 a) "/" then a ++ b
  else a ++ "/" ++ b.

(** [s.replace(old, new)]: every non-overlapping occurrence, scanning from
    the left.  [skip] counts the characters of a matched occurrence that are
    still to be dropped. *)
Fixpoint replace_from (old new : string) (skip : nat) (s : string) : string :=
  match s with
  | EmptyString =>
      match old with EmptyString => new | String _ _ => EmptyString end
  | String c rest =>
      match skip with
      | S k => replace_from old new k rest
      | O =>
          if String.prefix old s then
            match old with
            | EmptyString => new ++ String c (replace_from old new 0 rest)
            | String _ _ =>
                new ++ replace_from old new (String.length old - 1) rest
            end
          else String c (replace_from old new 0 rest)
      end
  end.

Definition replace (s old new : string) : string := replace_from old new 0 s.

(** What a path operation returns: a dict of JSON scalars, or a
    [StreamingResponse] over an in-memory buffer. *)
Inductive json : Type :=
| JStr (s : string)
| JBool (b : bool).

Inductive handler_result : Type :=
| Dict (fields : list (string * json))
| StreamingResponse (content : bytes) (media_type : string).

(** What goes back over HTTP. *)
Inductive http_body : Type :=
| BodyJSON (fields : list (string * json))
| BodyBytes (content : bytes)
| BodyText (text : string)
| BodyValidationErrors (missing : list string).

Record http_response : Type := {
  status : nat;
  content_type : string;
  body : http_body
}.

(** The multipart form of a [POST /generate], as received: a field the
    client did not send is [None]. *)
Record FormData : Type := {
  form_text : option string;
  form_language : option string;
  form_speaker_wav : option UploadFile
}.

(** A parameter declaration: [Form(...)] and [File(...)] are required,
    [Form("en")] has a default. *)
Inductive param_decl : Type :=
| Required
| Default (v : string).

(** The places where an operating-system call of a request can fail. *)
Inductive io_step : Type :=
| AtCreate
| AtCopy
| AtClose (path : string)
| AtOpen (path : string)
| AtRead (path : string)
| AtRemove (path : string).

(** What the process gets from outside. *)
Record Env : Type := {
  cuda_is_available : bool;          (* torch.cuda.is_available() *)
  mps_is_available : bool;           (* torch.backends.mps.is_available() *)
  TTS_init : string -> outcome TTS;  (* TTS(model_name) *)
  TTS_to : TTS -> string -> outcome TTS;  (* model.to(device) *)
  gettempdir : string;               (* tempfile.gettempdir() *)
  candidate_names : list string;     (* tempfile's random names, at most TMP_MAX *)
  io_fault : io_step -> option exn;  (* an OSError injected at that step *)
  copy_progress : nat                (* bytes that reach the file when the copy fails *)
}.

Section Service.
Context (E : Env).

(** [tempfile.NamedTemporaryFile(delete=False, suffix=suffix)]: the first
    candidate name that does not exist yet is created, empty (O_EXCL). *)
Fixpoint first_free (suffix : string) (names : list string)
    (disk : gmap string bytes) : option string :=
  match names with
  | [] => None
  | n :: rest =>
      let p := path_join (gettempdir E) ("tmp" ++ n ++ suffix) in
      match disk !! p with
      | None => Some p
      | Some _ => first_free suffix rest disk
      end
  end.

Definition NamedTemporaryFile (suffix : string) : M string :=
  fun w =>
    match io_fault E AtCreate with
    | Some e => (Raise e, w)
    | None =>
        match first_free suffix (candidate_names E) (fs w) with
        | None => (Raise FileExistsError_no_name, w)
        | Some p =>
            (Return p,
             add_trace (EvNamedTemporaryFile p) (set_fs (<[p := []]> (fs w)) w))
        end
    end.

(** [file.close()] *)
Definition close (path : string) : M unit :=
  fun w =>
    match io_fault E (AtClose path) with
    | Some e => (Raise e, w)
    | None => (Return tt, w)
    end.

(** [shutil.copyfileobj(src, dst)]: appends all of [src] to the open file. *)
Definition copyfileobj (src : bytes) (dst : string) : M unit :=
  fun w =>
    let old : bytes := default [] (fs w !! dst) in
    match io_fault E AtCopy with
    | Some e =>
        (Raise e,
         set_fs (<[dst := (old ++ take (copy_progress E) src)%list]> (fs w)) w)
    | None =>
        (Return tt,
         add_trace (EvCopyfileobj dst src) (set_fs (<[dst := (old ++ src)%list]> (fs w)) w))
    end.

(** [open(path, "rb")] *)
Definition open_rb (path : string) : M string :=
  fun w =>
    match io_fault E (AtOpen path) with
    | Some e => (Raise e, w)
    | None =>
        match fs w !! path with
        | None => (Raise (FileNotFoundError path), w)
        | Some _ => (Return path, w)
        end
    end.

(** [f.read()] *)
Definition read (path : string) : M bytes :=
  fun w =>
    match io_fault E (AtRead path) with
    | Some e => (Raise e, w)
    | None =>
        let data := default [] (fs w !! path) in
        (Return data, add_trace (EvRead path data) w)
    end.

(** [os.remove(path)] *)
Definition os_remove (path : string) : M unit :=
  fun w =>
    match io_fault E (AtRemove path) with
    | Some e => (Raise e, w)
    | None =>
        match fs w !! path with
        | None => (Raise (FileNotFoundError path), w)
        | Some _ =>
            (Return tt, add_trace (EvRemove path) (set_fs (delete path (fs w)) w))
        end
    end.

(** [model.tts_to_file(text=, speaker_wav=, language=, file_path=)]: the
    call is traced when it is made, whatever its outcome. *)
Definition call_tts_to_file (m : TTS)
    (text speaker_wav language file_path : string) : M unit :=
  fun w =>
    let w1 := add_trace (EvTtsToFile text speaker_wav language file_path) w in
    match tts_to_file m text speaker_wav language file_path (fs w1) with
    | (Return _, disk) => (Return tt, set_fs disk w1)
    | (Raise e, disk) => (Raise e, set_fs disk w1)
    end.

(** [TTS(model_name)] and [.to(device)], traced when called. *)
Definition call_TTS (model_name : string) : M TTS :=
  fun w =>
    let w1 := add_trace (EvTTS model_name) w in
    match TTS_init E model_name with
    | Return m => (Return m, w1)
    | Raise e => (Raise e, w1)
    end.

Definition call_to (m : TTS) (device : string) : M TTS :=
  fun w =>
    let w1 := add_trace (EvTo device) w in
    match TTS_to E m device with
    | Return m' => (Return m', w1)
    | Raise e => (Raise e, w1)
    end.

(** Truth value of the global: [None] is false, an object has its own. *)
Definition truth (v : option TTS) : bool :=
  match v with
  | None => false
  | Some m => obj_bool m
  end.

(** [v is not None] *)
Definition is_not_None (v : option TTS) : bool :=
  match v with
  | None => false
  | Some _ => true
  end.

(** ** main.py *)

Definition xtts_v2 : string := "tts_models/multilingual/multi-dataset/xtts_v2".

(** Lines 23-27: the device probe. *)
Definition probe_device : string :=
  let device := "cpu" in
  if cuda_is_available E then "cuda"
  else if mps_is_available E then "mps"
  else device.

(** Lines 17-39. *)
Definition startup_event : M unit :=
  print "⏳ Loading Coqui XTTS v2 model... This may take a while on first run." ;;;
  let device := probe_device in
  print ("🚀 Using device: " ++ device) ;;;
  try_except
    (m0 <- call_TTS xtts_v2 ;;
     m <- call_to m0 device ;;
     (fun w => (Return tt, set_tts_model (Some m) w)) ;;;
     print "✅ Model loaded successfully!")
    (fun e =>
       print ("❌ Failed to load model: " ++ str e) ;;;
       ret tt).

(** Lines 41-43. *)
Definition read_root : M handler_result :=
  v <- get_tts_model ;;
  ret (Dict [("status", JStr "online"); ("model_loaded", JBool (is_not_None v))]).

(** Lines 55-80: the body of the [try]. *)
Definition generate_body (text language : string) (speaker_wav : UploadFile)
    : M handler_result :=
  temp_wav_path <-
    with_ (NamedTemporaryFile ".wav") close
      (fun temp_wav =>
         copyfileobj (file speaker_wav) temp_wav ;;;
         ret temp_wav) ;;
  let output_path := replace temp_wav_path ".wav" "_output.wav" in
  v <- get_tts_model ;;
  match v with
  | None =>
      raise (Exception_ "AttributeError"
               "'NoneType' object has no attribute 'tts_to_file'")
  | Some m => call_tts_to_file m text temp_wav_path language output_path
  end ;;;
  audio_data <- with_ (open_rb output_path) close (fun f => read f) ;;
  os_remove temp_wav_path ;;;
  os_remove output_path ;;;
  ret (StreamingResponse audio_data "audio/wav").

(** Lines 45-84. *)
Definition generate_speech (text language : string) (speaker_wav : UploadFile)
    : M handler_result :=
  v <- get_tts_model ;;
  if negb (truth v) then
    raise (HTTPException 503 "TTS Model is not loaded")
  else
    try_except (generate_body text language speaker_wav)
      (fun e =>
         print ("❌ Generation error: " ++ str e) ;;;
         raise (HTTPException 500 (str e))).

(** ** FastAPI's part: binding the form and turning outcomes into responses *)

(** A returned dict is sent as JSON with status 200, a [StreamingResponse]
    with its media type and status 200; a raised [HTTPException] becomes
    its status code with body [{"detail": detail}]; any other exception is
    answered by the server's catch-all with a plain 500. *)
Definition respond (h : M handler_result) : world -> http_response * world :=
  fun w =>
    match h w with
    | (Return (Dict d), w') =>
        ({| status := 200; content_type := "application/json";
            body := BodyJSON d |}, w')
    | (Return (StreamingResponse c mt), w') =>
        ({| status := 200; content_type := mt; body := BodyBytes c |}, w')
    | (Raise (HTTPException c d), w') =>
        ({| status := c; content_type := "application/json";
            body := BodyJSON [("detail", JStr d)] |}, w')
    | (Raise (Exception_ _ _), w') =>
        ({| status := 500; content_type := "text/plain; charset=utf-8";
            body := BodyText "Internal Server Error" |}, w')
    end.

(** Binding one form field: a field that was not sent, or was sent as the
    empty string, takes the default if the declaration has one and is
    reported missing otherwise. *)
Definition bind_form (decl : param_decl) (received : option string)
    : option string :=
  match received with
  | Some (String c v) => Some (String c v)
  | Some EmptyString | None =>
      match decl with
      | Required => None
      | Default d => Some d
      end
  end.

(** Lines 47-49: the declared parameters of [generate_speech]. *)
Definition decl_text : param_decl := Required.
Definition decl_language : param_decl := Default "en".

Definition missing_fields (form : FormData) : list string :=
  ((match bind_form decl_text (form_text form) with
    | None => ["text"] | Some _ => [] end) ++
   (match bind_form decl_language (form_language form) with
    | None => ["language"] | Some _ => [] end) ++
   (match form_speaker_wav form with
    | None => ["speaker_wav"] | Some _ => [] end))%list.

(** [GET /] *)
Definition get_root : world -> http_response * world := respond read_root.

(** [POST /generate]: the handler runs only if every parameter binds;
    otherwise the request is answered 422 without calling it. *)
Definition post_generate (form : FormData) : world -> http_response * world :=
  match bind_form decl_text (form_text form),
        bind_form decl_language (form_language form),
        form_speaker_wav form with
  | Some text, Some language, Some speaker_wav =>
      respond (generate_speech text language speaker_wav)
  | _, _, _ =>
      fun w =>
        ({| status := 422; content_type := "application/json";
            body := BodyValidationErrors (missing_fields form) |}, w)
  end.

End Service.

(** ** Module loading: the imports of main.py and patch_transformers.py *)

Module Imports.

(** Objects found in the namespace of the [transformers] module. *)
Inductive pyobj : Type :=
| PyTrue
| PyList (items : list string)
| PyClass (qualname : string)
| PyModule (name : string).

(** [type(v).__name__] *)
Definition type_name (v : pyobj) : string :=
  match v with
  | PyTrue => "bool"
  | PyList _ => "list"
  | PyClass _ => "type"
  | PyModule _ => "module"
  end.

(** The TypeError of [x in v] for a [v] that is no container. *)
Definition not_iterable (v : pyobj) : exn :=
  Exception_ "TypeError"
    ("argument of type '" ++ type_name v ++ "' is not iterable").

(** A module namespace: its [__dict__] and, when the module defines one,
    its module-level [__getattr__]. *)
Record module_ns : Type := {
  attrs : gmap string pyobj;
  getattr_hook : option (string -> outcome pyobj)
}.

Definition AttributeError (name : string) : exn :=
  Exception_ "AttributeError"
    ("module 'transformers' has no attribute '" ++ name ++ "'").

Definition is_AttributeError (e : exn) : bool :=
  match e with
  | Exception_ cls _ => String.eqb cls "AttributeError"
  | HTTPException _ _ => false
  end.

(** [getattr(module, name)] *)
Definition module_getattr (ns : module_ns) (name : string) : outcome pyobj :=
  match attrs ns !! name with
  | Some v => Return v
  | None =>
      match getattr_hook ns with
      | Some f => f name
      | None => Raise (AttributeError name)
      end
  end.

(** [hasattr(module, name)]: only an AttributeError means "no". *)
Definition module_hasattr (ns : module_ns) (name : string) : outcome bool :=
  match module_getattr ns name with
  | Return _ => Return true
  | Raise e => if is_AttributeError e then Return false else Raise e
  end.

(** [module.name = v] *)
Definition module_setattr (name : string) (v : pyobj) (ns : module_ns)
    : module_ns :=
  {| attrs := <[name := v]> (attrs ns); getattr_hook := getattr_hook ns |}.

(** The installed packages, as far as the two modules can observe them. *)
Record Site : Type := {
  (* the namespace of [transformers] once its own __init__ has run *)
  transformers_init : module_ns;
  (* [from transformers.generation.beam_search import BeamSearchScorer]:
     the submodules of [transformers] that the import system loads for it
     ([generation] when that package exists, and the siblings that the
     bodies executed import), by the name each is bound under *)
  beam_search_loads : list string;
  (* and what the statement evaluates to: the class, or the exception *)
  beam_search_BeamSearchScorer : outcome pyobj;
  (* no submodule of [transformers] is called [__all__] *)
  beam_search_loads_ok :
    forallb (fun n => negb (String.eqb n "__all__")) beam_search_loads = true
}.

(** The interpreter. *)
Record interp : Type := {
  sys_modules : list string;      (* modules loaded, in load order *)
  transformers : module_ns;
  printed : list string
}.

Definition fresh_interp (site : Site) : interp :=
  {| sys_modules := []; transformers := transformers_init site; printed := [] |}.

Definition set_transformers (ns : module_ns) (st : interp) : interp :=
  {| sys_modules := sys_modules st; transformers := ns; printed := printed st |}.
Definition set_sys_modules (l : list string) (st : interp) : interp :=
  {| sys_modules := l; transformers := transformers st; printed := printed st |}.

Definition iprint (s : string) : ST interp unit :=
  fun st => (Return tt,
             {| sys_modules := sys_modules st; transformers := transformers st;
                printed := (printed st ++ [s])%list |}).

Definition lift {A} (o : outcome A) : ST interp A := fun st => (o, st).
Definition get_transformers : ST interp module_ns :=
  fun st => (Return (transformers st), st).
Definition setattr_transformers (name : string) (v : pyobj) : ST interp unit :=
  fun st => (Return tt, set_transformers (module_setattr name v (transformers st)) st).

(** [transformers.__getattr__ = f] *)
Definition set_getattr_hook (f : string -> outcome pyobj) : ST interp unit :=
  fun st =>
    (Return tt,
     set_transformers
       {| attrs := attrs (transformers st); getattr_hook := Some f |} st).

Definition loaded (name : string) (st : interp) : bool :=
  existsb (String.eqb name) (sys_modules st).

(** [import name]: a module's body runs the first time only; a module
    whose body raises is not left in [sys.modules]. *)
Definition import_module (name : string) (module_body : ST interp unit)
    : ST interp unit :=
  fun st =>
    if loaded name st then (Return tt, st)
    else
      match module_body (set_sys_modules (sys_modules st ++ [name])%list st) with
      | (Return _, st') => (Return tt, st')
      | (Raise e, st') =>
          (Raise e,
           set_sys_modules
             (filter (fun n => negb (String.eqb n name)) (sys_modules st')) st')
      end.

(** The import system loading the submodule [transformers.n]: the first
    time, the module is entered in [sys.modules] and bound under [n] in the
    namespace of its parent. *)
Definition load_submodule (n : string) : ST interp unit :=
  fun st =>
    if loaded ("transformers." ++ n) st then (Return tt, st)
    else
      (Return tt,
       set_transformers
         (module_setattr n (PyModule ("transformers." ++ n)) (transformers st))
         (set_sys_modules (sys_modules st ++ [("transformers." ++ n)%string])%list st)).

Fixpoint load_submodules (names : list string) : ST interp unit :=
  match names with
  | [] => ret tt
  | n :: rest => load_submodule n ;;; load_submodules rest
  end.

(** A package whose body does not touch the state modelled here. *)
Definition import_ (name : string) : ST interp unit :=
  import_module name (ret tt).

Section Modules.
Context (site : Site).

(** patch_transformers.py, lines 26-31. *)
Definition patched_getattr (BeamSearchScorer : pyobj)
    (original_getattr : option (string -> outcome pyobj)) (name : string)
    : outcome pyobj :=
  if String.eqb name "BeamSearchScorer" then Return BeamSearchScorer
  else
    match original_getattr with
    | Some f => f name
    | None => Raise (AttributeError name)
    end.

(** patch_transformers.py, line 11. *)
Definition from_beam_search_import : ST interp pyobj :=
  load_submodules (beam_search_loads site) ;;;
  lift (beam_search_BeamSearchScorer site).

(** patch_transformers.py, lines 11-35: the body of the [try]. *)
Definition patch_body : ST interp unit :=
  BeamSearchScorer <- from_beam_search_import ;;
  setattr_transformers "BeamSearchScorer" BeamSearchScorer ;;;
  ns <- get_transformers ;;
  has_all <- lift (module_hasattr ns "__all__") ;;
  (if has_all : bool then
     all_ <- lift (module_getattr ns "__all__") ;;
     match all_ with
     | PyList items =>
         if existsb (String.eqb "BeamSearchScorer") items then ret tt
         else
           (* the append is seen through the namespace when the list is
              held in the module's __dict__ *)
           match attrs ns !! "__all__" with
           | Some _ =>
               setattr_transformers "__all__"
                 (PyList (items ++ ["BeamSearchScorer"])%list)
           | None => ret tt
           end
     | v => raise (not_iterable v)
     end
   else ret tt) ;;;
  ns <- get_transformers ;;
  patched <- lift (module_hasattr ns "_patched_getattr") ;;
  (if negb patched then
     let original_getattr := getattr_hook ns in
     setattr_transformers "_patched_getattr" PyTrue ;;;
     set_getattr_hook (patched_getattr BeamSearchScorer original_getattr)
   else ret tt) ;;;
  iprint "✅ Patched BeamSearchScorer into transformers namespace".

(** patch_transformers.py as a whole. *)
Definition patch_transformers : ST interp unit :=
  import_ "transformers" ;;;
  try_except patch_body
    (fun e => iprint ("⚠️ Warning: Could not patch BeamSearchScorer: " ++ str e)).

(** The synthesis library's module, a third-party package.  As the shim's
    docstring describes, its internal imports look the symbol up under the
    legacy top-level name ([from transformers import BeamSearchScorer]). *)
Definition TTS_api : ST interp unit :=
  import_ "transformers" ;;;
  ns <- get_transformers ;;
  match module_getattr ns "BeamSearchScorer" with
  | Return _ => ret tt
  | Raise _ =>
      raise (Exception_ "ImportError"
               "cannot import name 'BeamSearchScorer' from 'transformers'")
  end.

(** main.py, lines 1-9. *)
Definition main_imports : ST interp unit :=
  import_ "os" ;;;
  import_ "torch" ;;;
  import_ "fastapi" ;;;
  import_ "fastapi.responses" ;;;
  import_module "TTS.api" TTS_api ;;;
  import_ "uvicorn" ;;;
  import_ "io" ;;;
  import_ "tempfile" ;;;
  import_ "shutil".

(** Process start: the interpreter loads [main]. *)
Definition run_main : outcome unit * interp :=
  import_module "main" main_imports (fresh_interp site).

End Modules.

End Imports.

(** ** Responses named in the statements *)

Definition health_payload (loaded : bool) : http_response :=
  {| status := 200; content_type := "application/json";
     body := BodyJSON [("status", JStr "online"); ("model_loaded", JBool loaded)] |}.

Definition unavailable : http_response :=
  {| status := 503; content_type := "application/json";
     body := BodyJSON [("detail", JStr "TTS Model is not loaded")] |}.

Definition internal_error (detail : string) : http_response :=
  {| status := 500; content_type := "application/json";
     body := BodyJSON [("detail", JStr detail)] |}.

Definition audio_response (content : bytes) : http_response :=
  {| status := 200; content_type := "audio/wav"; body := BodyBytes content |}.

Definition validation_error (missing : list string) : http_response :=
  {| status := 422; content_type := "application/json";
     body := BodyValidationErrors missing |}.

(** The load at lines 34 raises [e]: in the constructor, or in [.to]. *)
Definition load_raises (E : Env) (e : exn) : Prop :=
  TTS_init E xtts_v2 = Raise e
  \/ exists m0, TTS_init E xtts_v2 = Return m0
               /\ TTS_to E m0 (probe_device E) = Raise e.

(** The lines [startup_event] prints. *)
Definition loading_banner : string :=
  "⏳ Loading Coqui XTTS v2 model... This may take a while on first run.".
Definition device_line (E : Env) : string :=
  "🚀 Using device: " ++ probe_device E.
Definition load_failure_line (e : exn) : string :=
  "❌ Failed to load model: " ++ str e.

Definition generation_error (e : exn) : string :=
  "❌ Generation error: " ++ str e.

(** ** Sample data used by the closed examples *)

Definition sample_upload : UploadFile :=
  {| filename := "voice.wav"; file := [x52; x49; x46; x46] |}.

(** A model that writes one fixed clip to [file_path]. *)
Definition working_model : TTS :=
  {| obj_bool := true;
     tts_to_file := fun _ _ _ file_path disk =>
       (Return tt, <[file_path := [x52; x49; x46; x46; x00; x01]]> disk) |}.

(** A model that rejects every language. *)
Definition failing_model : TTS :=
  {| obj_bool := true;
     tts_to_file := fun _ _ language _ disk =>
       (Raise (Exception_ "ValueError"
                 ("Language " ++ language ++ " is not supported.")), disk) |}.

(** An object that is not None and whose truth value is false. *)
Definition falsy_model : TTS :=
  {| obj_bool := false;
     tts_to_file := fun _ _ _ _ disk => (Return tt, disk) |}.

Definition quiet_env (load : string -> outcome TTS) : Env :=
  {| cuda_is_available := false;
     mps_is_available := false;
     TTS_init := load;
     TTS_to := fun m _ => Return m;
     gettempdir := "/tmp";
     candidate_names := ["k3x9_q2a"; "p0w7zb1c"];
     io_fault := fun _ => None;
     copy_progress := 0 |}.

Definition world_with (m : option TTS) : world :=
  set_tts_model m (initial_world ∅).

(** An installation in which the class lives only at its new location:
    the top-level namespace neither holds it nor defines [__getattr__]. *)
Definition BeamSearchScorer_class : Imports.pyobj :=
  Imports.PyClass "transformers.generation.beam_search.BeamSearchScorer".

Definition moved_site : Imports.Site :=
  {| Imports.transformers_init :=
       {| Imports.attrs := {[ "__all__" := Imports.PyList ["AutoModel"] ]};
          Imports.getattr_hook := None |};
     Imports.beam_search_loads := ["generation"];
     Imports.beam_search_BeamSearchScorer := Return BeamSearchScorer_class;
     Imports.beam_search_loads_ok := eq_refl |}.

Definition shim_loaded (st : Imports.interp) : bool :=
  Imports.loaded "patch_transformers" st.

(** ** Predicates on module-level code *)

(** [m] keeps [P] true of the Imports.interpreter, however it ends. *)
Definition preserves {A} (P : Imports.interp -> Prop) (m : ST Imports.interp A) : Prop :=
  forall st o st', P st -> m st = (o, st') -> P st'.

(** The property kept: the class is in the module's [__dict__]. *)
Definition has_symbol (c : Imports.pyobj) (st : Imports.interp) : Prop :=
  Imports.attrs (Imports.transformers st) !! "BeamSearchScorer" = Some c.

(** [m] makes [P] true, however it ends. *)
Definition establishes {A} (P : Imports.interp -> Prop) (m : ST Imports.interp A) : Prop :=
  forall st o st', m st = (o, st') -> P st'.

(** ** Notions used by the further properties *)

(** The library calls of one request that runs to the end. *)
Definition request_calls (p text language : string) (speaker_wav : UploadFile)
    (audio : bytes) : list event :=
  let output_path := replace p ".wav" "_output.wav" in
  [EvNamedTemporaryFile p;
   EvCopyfileobj p (file speaker_wav);
   EvTtsToFile text p language output_path;
   EvRead output_path audio;
   EvRemove p;
   EvRemove output_path].

(** A model whose [tts_to_file] changes no file but the one at [file_path]. *)
Definition writes_only_file_path (m : TTS) : Prop :=
  forall text speaker_wav language file_path disk o disk',
    tts_to_file m text speaker_wav language file_path disk = (o, disk') ->
    forall q, q <> file_path -> disk' !! q = disk !! q.

(** No character of [s] is a dot. *)
Fixpoint dotless (s : string) : bool :=
  match s with
  | EmptyString => true
  | String c rest => negb (Ascii.eqb c ".") && dotless rest
  end.


(** Whether the load of lines 34 goes through. *)
Definition load_succeeds (E : Env) : bool :=
  match TTS_init E xtts_v2 with
  | Return m0 =>
      match TTS_to E m0 (probe_device E) with
      | Return _ => true
      | Raise _ => false
      end
  | Raise _ => false
  end.


(** An environment whose disk is full: the copy of the upload fails after
    two bytes. *)
Definition copy_fault_env : Env :=
  {| cuda_is_available := false;
     mps_is_available := false;
     TTS_init := fun _ => Return working_model;
     TTS_to := fun m _ => Return m;
     gettempdir := "/tmp";
     candidate_names := ["k3x9_q2a"];
     io_fault := fun s =>
       match s with
       | AtCopy => Some (Exception_ "OSError" "[Errno 28] No space left on device")
       | _ => None
       end;
     copy_progress := 2 |}.

(** An installation whose [generation] package has no [beam_search]. *)
Definition legacy_site : Imports.Site :=
  {| Imports.transformers_init :=
       {| Imports.attrs := {[ "BeamSearchScorer" := Imports.PyClass "transformers.BeamSearchScorer" ]};
          Imports.getattr_hook := None |};
     Imports.beam_search_loads := ["generation"];
     Imports.beam_search_BeamSearchScorer :=
       Raise (Exception_ "ModuleNotFoundError"
                "No module named 'transformers.generation.beam_search'");
     Imports.beam_search_loads_ok := eq_refl |}.

(** ** The shim as a function of the namespace *)

(** patch_transformers.py, lines 17-19, on the namespace alone: the
    namespace after the guarded append, or the exception raised. *)
Definition add_to_all (ns : Imports.module_ns) : outcome Imports.module_ns :=
  match Imports.module_hasattr ns "__all__" with
  | Raise e => Raise e
  | Return false => Return ns
  | Return true =>
      match Imports.module_getattr ns "__all__" with
      | Raise e => Raise e
      | Return (Imports.PyList items) =>
          if existsb (String.eqb "BeamSearchScorer") items then Return ns
          else
            match Imports.attrs ns !! "__all__" with
            | Some _ =>
                Return (Imports.module_setattr "__all__"
                          (Imports.PyList (items ++ ["BeamSearchScorer"])%list) ns)
            | None => Return ns
            end
      | Return v => Raise (Imports.not_iterable v)
      end
  end.

(** Lines 22-33, likewise. *)
Definition install_hook (c : Imports.pyobj) (ns : Imports.module_ns)
    : outcome Imports.module_ns :=
  match Imports.module_hasattr ns "_patched_getattr" with
  | Raise e => Raise e
  | Return true => Return ns
  | Return false =>
      Return {| Imports.attrs := <["_patched_getattr" := Imports.PyTrue]> (Imports.attrs ns);
                Imports.getattr_hook :=
                  Some (Imports.patched_getattr c (Imports.getattr_hook ns)) |}
  end.

(** The namespace the shim leaves when the class [c] was imported. *)
Definition patched_ns (c : Imports.pyobj) (ns : Imports.module_ns)
    : Imports.module_ns :=
  let ns1 := Imports.module_setattr "BeamSearchScorer" c ns in
  match add_to_all ns1 with
  | Raise _ => ns1
  | Return ns2 =>
      match install_hook c ns2 with
      | Raise _ => ns2
      | Return ns3 => ns3
      end
  end.

(** * Properties *)

(** ** Basic facts about the monad *)

Lemma bind_Return {S A B} (m : ST S A) (k : A -> ST S B) w a w' :
  m w = (Return a, w') -> bind m k w = k a w'.
Proof. intros H. unfold bind. now rewrite H. Qed.

Lemma bind_Raise {S A B} (m : ST S A) (k : A -> ST S B) w e w' :
  m w = (Raise e, w') -> bind m k w = (Raise e, w').
Proof. intros H. unfold bind. now rewrite H. Qed.

Lemma try_except_Return {S A} (m : ST S A) h w a w' :
  m w = (Return a, w') -> try_except m h w = (Return a, w').
Proof. intros H. unfold try_except. now rewrite H. Qed.

Lemma try_except_Raise {S A} (m : ST S A) h w e w' :
  m w = (Raise e, w') -> try_except m h w = h e w'.
Proof. intros H. unfold try_except. now rewrite H. Qed.

(** ** The health route *)

(** C9: [GET /] answers 200 with [{"status": "online", "model_loaded": b}].
    When the handle is None, [b] is false; when the handle is any object,
    [b] is true.  The route leaves the world as it found it, so a second
    call gives the same answer. *)
Theorem get_root_reports_handle (w : world) :
  (tts_model w = None -> get_root w = (health_payload false, w))
  /\ (forall m, tts_model w = Some m -> get_root w = (health_payload true, w))
  /\ get_root (snd (get_root w)) = get_root w.
Proof.
  unfold get_root, respond, read_root, bind, get_tts_model, ret.
  split; [| split].
  - intros H. now rewrite H.
  - intros m H. now rewrite H.
  - reflexivity.
Qed.

Lemma get_root_reports_handle_witness :
  get_root (world_with None) = (health_payload false, world_with None)
  /\ get_root (world_with (Some working_model))
     = (health_payload true, world_with (Some working_model)).
Proof.
  split.
  - apply (proj1 (get_root_reports_handle (world_with None))). reflexivity.
  - apply (proj1 (proj2 (get_root_reports_handle
                           (world_with (Some working_model)))) working_model).
    reflexivity.
Defined.

(** ** The synthesis route with no usable handle *)

Lemma generate_speech_falsy (E : Env) text language speaker_wav (w : world) :
  truth (tts_model w) = false ->
  generate_speech E text language speaker_wav w
  = (Raise (HTTPException 503 "TTS Model is not loaded"), w).
Proof.
  intros H. unfold generate_speech, bind, get_tts_model. now rewrite H.
Qed.

Lemma post_generate_bound (E : Env) (form : FormData) (w : world) :
  missing_fields form = [] ->
  exists text language speaker_wav,
    post_generate E form w
    = respond (generate_speech E text language speaker_wav) w.
Proof.
  unfold missing_fields, post_generate.
  destruct (bind_form decl_text (form_text form)) as [text |];
    [| discriminate].
  destruct (bind_form decl_language (form_language form)) as [language |];
    [| discriminate].
  destruct (form_speaker_wav form) as [speaker_wav |]; [| discriminate].
  intros _. now exists text, language, speaker_wav.
Qed.

(** C2: while the handle is unset, the synthesis handler raises the 503
    error and the world is untouched: the filesystem is the same and no
    library call has been made.  Every request that reaches the handler is
    therefore answered 503. *)
Theorem generate_unset_is_503 (E : Env) text language speaker_wav (w : world) :
  tts_model w = None ->
  generate_speech E text language speaker_wav w
  = (Raise (HTTPException 503 "TTS Model is not loaded"), w)
  /\ respond (generate_speech E text language speaker_wav) w = (unavailable, w)
  /\ (forall form, missing_fields form = [] ->
        post_generate E form w = (unavailable, w)).
Proof.
  intros H.
  assert (G : forall t l u,
             generate_speech E t l u w
             = (Raise (HTTPException 503 "TTS Model is not loaded"), w)).
  { intros t l u. apply generate_speech_falsy. now rewrite H. }
  split; [apply G |].
  split; [unfold respond; now rewrite G |].
  intros form Hform.
  destruct (post_generate_bound E form w Hform) as (t & l & u & ->).
  unfold respond. now rewrite G.
Qed.

Lemma generate_unset_is_503_witness :
  tts_model (world_with None) = None
  /\ respond (generate_speech (quiet_env (fun _ => Return working_model))
                "hello" "en" sample_upload) (world_with None)
     = (unavailable, world_with None).
Proof.
  split; [reflexivity |].
  apply (generate_unset_is_503 (quiet_env (fun _ => Return working_model))
           "hello" "en" sample_upload (world_with None)).
  reflexivity.
Defined.

(** C10: the two routes test the handle differently.  For a handle that
    is not None but whose truth value is false, [GET /] reports
    [model_loaded] true while [POST /generate] answers 503. *)
Theorem falsy_handle_routes_disagree (E : Env) (m : TTS) text language
    speaker_wav (w : world) :
  tts_model w = Some m ->
  obj_bool m = false ->
  get_root w = (health_payload true, w)
  /\ respond (generate_speech E text language speaker_wav) w = (unavailable, w).
Proof.
  intros Hm Hb. split.
  - unfold get_root, respond, read_root, bind, get_tts_model, ret.
    now rewrite Hm.
  - unfold respond.
    rewrite generate_speech_falsy; [reflexivity |].
    now rewrite Hm.
Qed.

Lemma falsy_handle_routes_disagree_witness :
  get_root (world_with (Some falsy_model))
  = (health_payload true, world_with (Some falsy_model))
  /\ respond (generate_speech (quiet_env (fun _ => Return falsy_model))
                "hello" "en" sample_upload) (world_with (Some falsy_model))
     = (unavailable, world_with (Some falsy_model)).
Proof.
  apply (falsy_handle_routes_disagree (quiet_env (fun _ => Return falsy_model))
           falsy_model "hello" "en" sample_upload
           (world_with (Some falsy_model))); reflexivity.
Defined.

(** ** Inversion of the combinators and of the library calls *)

Lemma bind_inv_Return {S A B} (m : ST S A) (k : A -> ST S B) w b w' :
  bind m k w = (Return b, w') ->
  exists a w1, m w = (Return a, w1) /\ k a w1 = (Return b, w').
Proof.
  unfold bind. destruct (m w) as [[a | e] w1]; intros H; [eauto | discriminate].
Qed.

Lemma bind_inv_Raise {S A B} (m : ST S A) (k : A -> ST S B) w e w' :
  bind m k w = (Raise e, w') ->
  m w = (Raise e, w')
  \/ exists a w1, m w = (Return a, w1) /\ k a w1 = (Raise e, w').
Proof.
  unfold bind. destruct (m w) as [[a | e0] w1]; intros H; [right; eauto | left; inversion H; reflexivity].
Qed.

Lemma with_inv_Return {S R A} (acquire : ST S R) release (body : R -> ST S A)
    w a w' :
  with_ acquire release body w = (Return a, w') ->
  exists r w1 w2,
    acquire w = (Return r, w1)
    /\ body r w1 = (Return a, w2)
    /\ release r w2 = (Return tt, w').
Proof.
  unfold with_. intros H.
  apply bind_inv_Return in H as (r & w1 & Hacq & H).
  exists r, w1.
  destruct (body r w1) as [[a0 | e] w2].
  - destruct (release r w2) as [[[] | e] w3] eqn:Hrel; [| discriminate].
    inversion H; subst. eauto.
  - destruct (release r w2) as [[[] | e'] w3]; discriminate.
Qed.

Section Inversion.
Context (E : Env).

Lemma NamedTemporaryFile_inv suffix w p w' :
  NamedTemporaryFile E suffix w = (Return p, w') ->
  first_free E suffix (candidate_names E) (fs w) = Some p
  /\ w' = add_trace (EvNamedTemporaryFile p) (set_fs (<[p := []]> (fs w)) w).
Proof.
  unfold NamedTemporaryFile.
  destruct (io_fault E AtCreate); [discriminate |].
  destruct (first_free E suffix (candidate_names E) (fs w)); [| discriminate].
  intros H; inversion H; subst; auto.
Qed.

Lemma close_inv path w u w' :
  close E path w = (Return u, w') -> w' = w.
Proof.
  unfold close. destruct (io_fault E (AtClose path)); [discriminate |].
  now inversion 1.
Qed.

Lemma copyfileobj_inv src dst w u w' :
  copyfileobj E src dst w = (Return u, w') ->
  w' = add_trace (EvCopyfileobj dst src)
         (set_fs (<[dst := (default [] (fs w !! dst) ++ src)%list]> (fs w)) w).
Proof.
  unfold copyfileobj. destruct (io_fault E AtCopy); [discriminate |].
  now inversion 1.
Qed.

Lemma open_rb_inv path w f w' :
  open_rb E path w = (Return f, w') ->
  f = path /\ w' = w /\ is_Some (fs w !! path).
Proof.
  unfold open_rb. destruct (io_fault E (AtOpen path)); [discriminate |].
  destruct (fs w !! path) eqn:Hl; [| discriminate].
  inversion 1; subst; eauto.
Qed.

Lemma read_inv path w data w' :
  read E path w = (Return data, w') ->
  data = default [] (fs w !! path) /\ w' = add_trace (EvRead path data) w.
Proof.
  unfold read. destruct (io_fault E (AtRead path)); [discriminate |].
  inversion 1; subst; auto.
Qed.

Lemma os_remove_inv path w u w' :
  os_remove E path w = (Return u, w') ->
  is_Some (fs w !! path)
  /\ w' = add_trace (EvRemove path) (set_fs (delete path (fs w)) w).
Proof.
  unfold os_remove. destruct (io_fault E (AtRemove path)); [discriminate |].
  destruct (fs w !! path) eqn:Hl; [| discriminate].
  inversion 1; subst; eauto.
Qed.

Lemma call_tts_to_file_inv m text speaker_wav language file_path w u w' :
  call_tts_to_file m text speaker_wav language file_path w = (Return u, w') ->
  exists disk,
    tts_to_file m text speaker_wav language file_path (fs w) = (Return tt, disk)
    /\ w' = set_fs disk
              (add_trace (EvTtsToFile text speaker_wav language file_path) w).
Proof.
  unfold call_tts_to_file. simpl.
  destruct (tts_to_file m text speaker_wav language file_path (fs w))
    as [[[] | e] disk]; [| discriminate].
  inversion 1; subst; eauto.
Qed.

(** The handler's last statement re-raises, so a returned value comes
    from the body. *)
Lemma generate_speech_inv_Return text language speaker_wav w r w' :
  generate_speech E text language speaker_wav w = (Return r, w') ->
  truth (tts_model w) = true
  /\ generate_body E text language speaker_wav w = (Return r, w').
Proof.
  unfold generate_speech, bind, get_tts_model.
  destruct (truth (tts_model w)); simpl; [| discriminate].
  unfold try_except.
  destruct (generate_body E text language speaker_wav w) as [[a | e] w1];
    [inversion 1; subst; auto |].
  unfold bind, print, raise. discriminate.
Qed.

End Inversion.

(** ** The output path is a second path *)

Lemma string_append_assoc (a b c : string) : (a ++ b) ++ c = a ++ (b ++ c).
Proof.
  induction a as [| x a' IH]; [reflexivity |].
  change (String x ((a' ++ b) ++ c) = String x (a' ++ b ++ c)). now f_equal.
Qed.

Lemma string_length_append (a b : string) :
  String.length (a ++ b) = String.length a + String.length b.
Proof.
  induction a as [| x a' IH]; [reflexivity |].
  change (S (String.length (a' ++ b)) = S (String.length a' + String.length b)).
  now f_equal.
Qed.

(** Replacing ".wav" by "_output.wav" never shortens what is left. *)
Lemma replace_from_wav_length (s : string) (skip : nat) :
  String.length s <= String.length (replace_from ".wav" "_output.wav" skip s) + skip.
Proof.
  revert skip. induction s as [| c rest IH]; intros skip.
  - simpl. lia.
  - destruct skip as [| k].
    + cbn [replace_from].
      destruct (String.prefix ".wav" (String c rest)).
      * cbn [String.length Nat.sub].
        rewrite string_length_append. specialize (IH 3).
        cbn [String.length] in *. lia.
      * cbn [String.length]. specialize (IH 0). lia.
    + cbn [replace_from String.length]. specialize (IH k). lia.
Qed.

(** A string that ends in ".wav" gets longer. *)
Lemma replace_wav_longer (a : string) :
  String.length (a ++ ".wav")
  < String.length (replace (a ++ ".wav") ".wav" "_output.wav").
Proof.
  unfold replace. induction a as [| c a IH].
  - vm_compute. lia.
  - change (String c a ++ ".wav") with (String c (a ++ ".wav")).
    cbn [replace_from].
    destruct (String.prefix ".wav" (String c (a ++ ".wav"))).
    + cbn [String.length Nat.sub].
      rewrite (string_length_append "_output.wav").
      pose proof (replace_from_wav_length (a ++ ".wav") 3).
      cbn [String.length] in *. lia.
    + cbn [String.length]. lia.
Qed.

Lemma path_join_suffix (a b sfx : string) :
  exists pre, path_join a (b ++ sfx) = pre ++ sfx.
Proof.
  unfold path_join.
  destruct (String.prefix "/" (b ++ sfx)); [now exists b |].
  destruct (String.length a =? 0)%nat; [now exists b |].
  destruct (String.eqb _ "/").
  - exists (a ++ b). now rewrite string_append_assoc.
  - exists (a ++ "/" ++ b). now rewrite !string_append_assoc.
Qed.

Lemma first_free_suffix (E : Env) sfx names (disk : gmap string (list byte)) p :
  first_free E sfx names disk = Some p -> exists pre, p = pre ++ sfx.
Proof.
  induction names as [| n rest IH]; cbn [first_free]; [discriminate |].
  rewrite <- (string_append_assoc "tmp" n sfx).
  destruct (path_join_suffix (gettempdir E) ("tmp" ++ n) sfx) as [pre Hp].
  rewrite Hp.
  destruct (disk !! (pre ++ sfx)).
  - exact IH.
  - intros H; inversion H; subst. now exists pre.
Qed.

Lemma output_path_differs (E : Env) names (disk : gmap string (list byte)) p :
  first_free E ".wav" names disk = Some p ->
  replace p ".wav" "_output.wav" <> p.
Proof.
  intros H. apply first_free_suffix in H as [pre ->].
  intros Heq. pose proof (replace_wav_longer pre) as Hl.
  rewrite Heq in Hl. lia.
Qed.

(** ** The successful request *)

(** What a run of the [try] body that returns has done. *)
Lemma generate_body_inv_Return (E : Env) text language speaker_wav
    (w w' : world) (r : handler_result) :
  generate_body E text language speaker_wav w = (Return r, w') ->
  exists temp_wav_path m disk audio,
    let output_path := replace temp_wav_path ".wav" "_output.wav" in
    tts_model w = Some m
    /\ first_free E ".wav" (candidate_names E) (fs w) = Some temp_wav_path
    /\ output_path <> temp_wav_path
    /\ tts_to_file m text temp_wav_path language output_path
         (<[temp_wav_path := file speaker_wav]> (fs w))
       = (Return tt, disk)
    /\ disk !! output_path = Some audio
    /\ trace w' =
       (trace w ++
        [EvNamedTemporaryFile temp_wav_path;
         EvCopyfileobj temp_wav_path (file speaker_wav);
         EvTtsToFile text temp_wav_path language output_path;
         EvRead output_path audio;
         EvRemove temp_wav_path;
         EvRemove output_path])%list
    /\ fs w' = delete output_path (delete temp_wav_path disk)
    /\ r = StreamingResponse audio "audio/wav".
Proof.
  intros H.
  unfold generate_body in H.
  apply bind_inv_Return in H as (p & w1 & Hwith & H).
  apply with_inv_Return in Hwith as (p0 & wa & wb & Hcreate & Hcopy & Hclose).
  apply NamedTemporaryFile_inv in Hcreate as [Hfree ->].
  apply bind_inv_Return in Hcopy as ([] & wc & Hcopy & Hret).
  apply copyfileobj_inv in Hcopy as ->.
  unfold ret in Hret. inversion Hret; subst p wb; clear Hret.
  apply close_inv in Hclose as ->.
  apply bind_inv_Return in H as (v & w2 & Hget & H).
  unfold get_tts_model in Hget. inversion Hget; subst v w2; clear Hget.
  apply bind_inv_Return in H as ([] & w3 & Hsyn & H).
  simpl in Hsyn.
  destruct (tts_model w) as [m |] eqn:Hm; [| discriminate].
  apply call_tts_to_file_inv in Hsyn as (disk & Hsyn & ->).
  cbn [fs set_fs add_trace] in Hsyn.
  rewrite lookup_insert_eq, insert_insert_eq in Hsyn.
  cbn [default from_option app] in Hsyn.
  apply bind_inv_Return in H as (audio & w4 & Hread & H).
  apply with_inv_Return in Hread as (f & wd & we & Hopen & Hread & Hclose).
  apply open_rb_inv in Hopen as (-> & -> & [data Hdata]).
  apply read_inv in Hread as [Haudio ->].
  apply close_inv in Hclose as ->.
  cbn [fs set_fs add_trace] in Hdata, Haudio.
  rewrite Hdata in Haudio. simpl in Haudio. subst data.
  apply bind_inv_Return in H as ([] & w5 & Hrm1 & H).
  apply os_remove_inv in Hrm1 as [_ ->].
  apply bind_inv_Return in H as ([] & w6 & Hrm2 & H).
  apply os_remove_inv in Hrm2 as [_ ->].
  unfold ret in H. inversion H; subst r w'; clear H.
  exists p0, m, disk, audio. cbv zeta. cbn [fs trace set_fs add_trace].
  split; [reflexivity |]. split; [exact Hfree |].
  split; [eapply output_path_differs; exact Hfree |].
  split; [exact Hsyn |]. split; [exact Hdata |].
  split; [now rewrite <- !app_assoc |]. split; reflexivity.
Qed.

(** C4: a request that succeeds went through the procedure in order.  The
    upload was written to a fresh temporary file, the model's
    [tts_to_file] was called with the text, the language and that path and
    produced the output file, the output file was read in full, both files
    were removed, and the bytes read are the body of a 200 response of
    type audio/wav. *)
Theorem generate_success_procedure (E : Env) text language speaker_wav
    (w w' : world) (r : handler_result) :
  generate_speech E text language speaker_wav w = (Return r, w') ->
  exists temp_wav_path m disk audio,
    let output_path := replace temp_wav_path ".wav" "_output.wav" in
    tts_model w = Some m
    /\ first_free E ".wav" (candidate_names E) (fs w) = Some temp_wav_path
    /\ output_path <> temp_wav_path
    /\ tts_to_file m text temp_wav_path language output_path
         (<[temp_wav_path := file speaker_wav]> (fs w))
       = (Return tt, disk)
    /\ disk !! output_path = Some audio
    /\ trace w' =
       (trace w ++
        [EvNamedTemporaryFile temp_wav_path;
         EvCopyfileobj temp_wav_path (file speaker_wav);
         EvTtsToFile text temp_wav_path language output_path;
         EvRead output_path audio;
         EvRemove temp_wav_path;
         EvRemove output_path])%list
    /\ fs w' = delete output_path (delete temp_wav_path disk)
    /\ r = StreamingResponse audio "audio/wav"
    /\ respond (generate_speech E text language speaker_wav) w
       = (audio_response audio, w').
Proof.
  intros H.
  assert (R : forall audio, r = StreamingResponse audio "audio/wav" ->
              respond (generate_speech E text language speaker_wav) w
              = (audio_response audio, w')).
  { intros audio ->. unfold respond. now rewrite H. }
  apply generate_speech_inv_Return in H as [_ H].
  apply generate_body_inv_Return in H
    as (p & m & disk & audio & Hm & Hf & Hne & Hs & Hd & Ht & Hfs & Hr).
  exists p, m, disk, audio. cbv zeta. auto 10.
Qed.

Lemma generate_success_procedure_witness :
  exists temp_wav_path m disk audio,
    let output_path := replace temp_wav_path ".wav" "_output.wav" in
    let E := quiet_env (fun _ => Return working_model) in
    let w := world_with (Some working_model) in
    let w' := snd (generate_speech E "hello" "en" sample_upload w) in
    tts_model w = Some m
    /\ first_free E ".wav" (candidate_names E) (fs w) = Some temp_wav_path
    /\ output_path <> temp_wav_path
    /\ tts_to_file m "hello" temp_wav_path "en" output_path
         (<[temp_wav_path := file sample_upload]> (fs w))
       = (Return tt, disk)
    /\ disk !! output_path = Some audio
    /\ trace w' =
       (trace w ++
        [EvNamedTemporaryFile temp_wav_path;
         EvCopyfileobj temp_wav_path (file sample_upload);
         EvTtsToFile "hello" temp_wav_path "en" output_path;
         EvRead output_path audio;
         EvRemove temp_wav_path;
         EvRemove output_path])%list
    /\ fs w' = delete output_path (delete temp_wav_path disk)
    /\ StreamingResponse [x52; x49; x46; x46; x00; x01] "audio/wav"
       = StreamingResponse audio "audio/wav"
    /\ respond (generate_speech E "hello" "en" sample_upload) w
       = (audio_response audio, w').
Proof.
  apply (generate_success_procedure
           (quiet_env (fun _ => Return working_model)) "hello" "en"
           sample_upload (world_with (Some working_model))).
  vm_compute. reflexivity.
Defined.

(** ** Exceptions inside the [try] *)

Lemma generate_speech_catches (E : Env) text language speaker_wav
    (w : world) e w1 :
  truth (tts_model w) = true ->
  generate_body E text language speaker_wav w = (Raise e, w1) ->
  generate_speech E text language speaker_wav w
  = (Raise (HTTPException 500 (str e)), add_stdout (generation_error e) w1).
Proof.
  intros Ht Hb.
  unfold generate_speech, bind at 1, get_tts_model. rewrite Ht. simpl.
  rewrite (try_except_Raise _ _ _ _ _ Hb). reflexivity.
Qed.

(** C3: with a usable handle, an exception [e] raised anywhere in the body
    of the [try] is caught: it is printed, and the handler raises
    [HTTPException 500] with detail [str e], which goes out as a 500
    response with that detail.  In no case does the handler let an
    exception other than an [HTTPException] out. *)
Theorem generate_exception_is_500 (E : Env) text language speaker_wav
    (w : world) :
  (forall cls msg w',
     generate_speech E text language speaker_wav w
     <> (Raise (Exception_ cls msg), w'))
  /\ (forall e w1,
        truth (tts_model w) = true ->
        generate_body E text language speaker_wav w = (Raise e, w1) ->
        generate_speech E text language speaker_wav w
        = (Raise (HTTPException 500 (str e)),
           add_stdout (generation_error e) w1)
        /\ respond (generate_speech E text language speaker_wav) w
           = (internal_error (str e), add_stdout (generation_error e) w1)).
Proof.
  split.
  - intros cls msg w'.
    unfold generate_speech, bind, get_tts_model, try_except, print, raise.
    destruct (negb (truth (tts_model w))); [discriminate |].
    destruct (generate_body E text language speaker_wav w) as [[a | e] w1];
      discriminate.
  - intros e w1 Ht Hb.
    assert (G := generate_speech_catches E text language speaker_wav w e w1 Ht Hb).
    split; [exact G | unfold respond; now rewrite G].
Qed.

Lemma generate_exception_is_500_witness :
  let E := quiet_env (fun _ => Return failing_model) in
  let w := world_with (Some failing_model) in
  let e := Exception_ "ValueError" "Language xx is not supported." in
  let w1 := snd (generate_body E "hello" "xx" sample_upload w) in
  generate_speech E "hello" "xx" sample_upload w
  = (Raise (HTTPException 500 "Language xx is not supported."),
     add_stdout (generation_error e) w1)
  /\ respond (generate_speech E "hello" "xx" sample_upload) w
     = (internal_error "Language xx is not supported.",
        add_stdout (generation_error e) w1).
Proof.
  intros E w e w1.
  apply (proj2 (generate_exception_is_500 E "hello" "xx" sample_upload w) e w1).
  - reflexivity.
  - vm_compute. reflexivity.
Defined.

(** ** Where the exceptions of a request come from *)

Lemma first_free_fresh (E : Env) suffix names (disk : gmap string (list byte)) p :
  first_free E suffix names disk = Some p -> disk !! p = None.
Proof.
  induction names as [| n rest IH]; simpl; [discriminate |].
  destruct (disk !! path_join (gettempdir E) ("tmp" ++ n ++ suffix)) eqn:Hl.
  - exact IH.
  - intros H; inversion H; subst. exact Hl.
Qed.

Lemma body_create_fault (E : Env) text language speaker_wav (w : world) e :
  io_fault E AtCreate = Some e ->
  generate_body E text language speaker_wav w = (Raise e, w).
Proof.
  intros H. unfold generate_body, with_, bind, NamedTemporaryFile.
  now rewrite H.
Qed.

(** The state in which [tts_to_file] is called. *)
Lemma body_reaches_synthesis (E : Env) speaker_wav (w : world) p :
  io_fault E AtCreate = None ->
  io_fault E AtCopy = None ->
  io_fault E (AtClose p) = None ->
  first_free E ".wav" (candidate_names E) (fs w) = Some p ->
  with_ (NamedTemporaryFile E ".wav") (close E)
    (fun temp_wav => copyfileobj E (file speaker_wav) temp_wav ;;; ret temp_wav) w
  = (Return p,
     add_trace (EvCopyfileobj p (file speaker_wav))
       (set_fs (<[p := file speaker_wav]> (fs w))
          (add_trace (EvNamedTemporaryFile p) w))).
Proof.
  intros Hc Hcp Hcl Hf.
  unfold with_, bind, NamedTemporaryFile, copyfileobj, close, ret.
  rewrite Hc, Hf, Hcp. cbn [fs set_fs add_trace]. rewrite Hcl.
  rewrite lookup_insert_eq, insert_insert_eq. reflexivity.
Qed.

Lemma body_synthesis_failure (E : Env) text language speaker_wav (w : world)
    p m e disk :
  io_fault E AtCreate = None ->
  io_fault E AtCopy = None ->
  io_fault E (AtClose p) = None ->
  first_free E ".wav" (candidate_names E) (fs w) = Some p ->
  tts_model w = Some m ->
  tts_to_file m text p language (replace p ".wav" "_output.wav")
    (<[p := file speaker_wav]> (fs w)) = (Raise e, disk) ->
  exists w1,
    generate_body E text language speaker_wav w = (Raise e, w1)
    /\ fs w1 = disk
    /\ trace w1 =
       (trace w ++
        [EvNamedTemporaryFile p;
         EvCopyfileobj p (file speaker_wav);
         EvTtsToFile text p language (replace p ".wav" "_output.wav")])%list.
Proof.
  intros Hc Hcp Hcl Hf Hm Hs.
  unfold generate_body.
  rewrite (bind_Return _ _ _ _ _ (body_reaches_synthesis E speaker_wav w p Hc Hcp Hcl Hf)).
  unfold bind at 1, get_tts_model. cbn [tts_model set_fs add_trace]. rewrite Hm.
  unfold bind at 1, call_tts_to_file. cbn [fs set_fs add_trace]. rewrite Hs.
  eexists; split; [reflexivity |]. cbn [fs trace set_fs add_trace].
  split; [reflexivity | now rewrite <- !app_assoc].
Qed.

(** A model that returns without having written the output file makes
    the [open] at line 73 raise. *)
Lemma body_missing_output (E : Env) text language speaker_wav (w : world)
    p m disk :
  io_fault E AtCreate = None ->
  io_fault E AtCopy = None ->
  io_fault E (AtClose p) = None ->
  io_fault E (AtOpen (replace p ".wav" "_output.wav")) = None ->
  first_free E ".wav" (candidate_names E) (fs w) = Some p ->
  tts_model w = Some m ->
  tts_to_file m text p language (replace p ".wav" "_output.wav")
    (<[p := file speaker_wav]> (fs w)) = (Return tt, disk) ->
  disk !! replace p ".wav" "_output.wav" = None ->
  exists w1,
    generate_body E text language speaker_wav w
    = (Raise (FileNotFoundError (replace p ".wav" "_output.wav")), w1).
Proof.
  intros Hc Hcp Hcl Ho Hf Hm Hs Hd.
  unfold generate_body.
  rewrite (bind_Return _ _ _ _ _ (body_reaches_synthesis E speaker_wav w p Hc Hcp Hcl Hf)).
  unfold bind at 1, get_tts_model. cbn [tts_model set_fs add_trace]. rewrite Hm.
  unfold bind at 1, call_tts_to_file. cbn [fs set_fs add_trace]. rewrite Hs.
  unfold bind at 1, with_, bind at 1, open_rb. rewrite Ho.
  cbn [fs set_fs add_trace]. rewrite Hd. eauto.
Qed.

(** X14: what the failure path leaves behind.  When [tts_to_file] raises
    and has not itself removed the reference sample, the handler raises
    the 500 error and the sample, which was not on disk before, still is. *)
Lemma synthesis_failure_keeps_reference (E : Env) text language speaker_wav
    (w : world) p m e disk data :
  io_fault E AtCreate = None ->
  io_fault E AtCopy = None ->
  io_fault E (AtClose p) = None ->
  first_free E ".wav" (candidate_names E) (fs w) = Some p ->
  tts_model w = Some m ->
  obj_bool m = true ->
  tts_to_file m text p language (replace p ".wav" "_output.wav")
    (<[p := file speaker_wav]> (fs w)) = (Raise e, disk) ->
  disk !! p = Some data ->
  exists w',
    generate_speech E text language speaker_wav w
    = (Raise (HTTPException 500 (str e)), w')
    /\ fs w !! p = None
    /\ fs w' !! p = Some data.
Proof.
  intros Hc Hcp Hcl Hf Hm Hb Hs Hd.
  destruct (body_synthesis_failure E text language speaker_wav w p m e disk
              Hc Hcp Hcl Hf Hm Hs) as (w1 & Hbody & Hfs & _).
  assert (Ht : truth (tts_model w) = true) by now rewrite Hm.
  assert (G := generate_speech_catches E text language speaker_wav w e w1 Ht Hbody).
  eexists; split; [exact G |].
  split; [eapply first_free_fresh; eauto |].
  cbn [fs add_stdout]. now rewrite Hfs.
Qed.

(** The success path removes both files. *)
Lemma success_removes_both (E : Env) text language speaker_wav
    (w w' : world) r :
  generate_speech E text language speaker_wav w = (Return r, w') ->
  exists p,
    first_free E ".wav" (candidate_names E) (fs w) = Some p
    /\ fs w' !! p = None
    /\ fs w' !! replace p ".wav" "_output.wav" = None.
Proof.
  intros H.
  apply generate_speech_inv_Return in H as [_ H].
  apply generate_body_inv_Return in H
    as (p & m & disk & audio & _ & Hf & Hne & _ & _ & _ & Hfs & _).
  exists p. rewrite Hfs. split; [exact Hf |]. split.
  - rewrite lookup_delete_ne by exact Hne. apply lookup_delete_eq.
  - apply lookup_delete_eq.
Qed.

(** C1, on the code: a request whose synthesis fails ends with a 500, and
    the reference sample it wrote is still on disk when the handler is
    done; nothing in the trace removes it. *)
Theorem failed_request_leaves_reference_sample :
  let E := quiet_env (fun _ => Return failing_model) in
  let w := world_with (Some failing_model) in
  let p := "/tmp/tmpk3x9_q2a.wav" in
  let w' := snd (generate_speech E "hello" "xx" sample_upload w) in
  fst (generate_speech E "hello" "xx" sample_upload w)
  = Raise (HTTPException 500 "Language xx is not supported.")
  /\ fs w !! p = None
  /\ fs w' !! p = Some (file sample_upload)
  /\ trace w' =
     [EvNamedTemporaryFile p;
      EvCopyfileobj p (file sample_upload);
      EvTtsToFile "hello" p "xx" "/tmp/tmpk3x9_q2a_output.wav"].
Proof.
  vm_compute. repeat split; reflexivity.
Qed.

(** ** Startup *)

Lemma startup_event_unfold (E : Env) (w : world) :
  startup_event E w =
  let w0 := add_stdout (device_line E) (add_stdout loading_banner w) in
  let w1 := add_trace (EvTTS xtts_v2) w0 in
  match TTS_init E xtts_v2 with
  | Raise e => (Return tt, add_stdout (load_failure_line e) w1)
  | Return m0 =>
      let w2 := add_trace (EvTo (probe_device E)) w1 in
      match TTS_to E m0 (probe_device E) with
      | Raise e =>
          (Return tt, add_stdout (load_failure_line e) w2)
      | Return m =>
          (Return tt,
           add_stdout "✅ Model loaded successfully!" (set_tts_model (Some m) w2))
      end
  end.
Proof.
  unfold startup_event, bind, try_except, print, call_TTS, call_to, ret.
  cbv zeta.
  destruct (TTS_init E xtts_v2) as [m0 | e]; [| reflexivity].
  destruct (TTS_to E m0 (probe_device E)) as [m | e]; reflexivity.
Qed.

(** C6: when the load raises, [startup_event] still returns normally; the
    failure is printed, the handle stays None, and afterwards [GET /]
    answers with [model_loaded] false and [POST /generate] with 503. *)
Theorem startup_failure_is_absorbed (E : Env) (w : world) (e : exn) :
  tts_model w = None ->
  load_raises E e ->
  exists w',
    startup_event E w = (Return tt, w')
    /\ tts_model w' = None
    /\ fs w' = fs w
    /\ stdout w' =
       (stdout w ++
        [loading_banner; device_line E;
         load_failure_line e])%list
    /\ get_root w' = (health_payload false, w')
    /\ forall text language speaker_wav,
         respond (generate_speech E text language speaker_wav) w'
         = (unavailable, w').
Proof.
  intros Hnone Hload.
  assert (Hw : exists w', startup_event E w = (Return tt, w')
                 /\ tts_model w' = None /\ fs w' = fs w
                 /\ stdout w' =
                    (stdout w ++
                     [loading_banner; device_line E;
                      load_failure_line e])%list).
  { rewrite startup_event_unfold. cbv zeta.
    destruct Hload as [-> | (m0 & -> & ->)];
      (eexists; split; [reflexivity |]; cbn;
       repeat split; auto; now rewrite <- !app_assoc). }
  destruct Hw as (w' & Hs & Hm & Hfs & Hout).
  exists w'. repeat split; auto.
  - unfold get_root, respond, read_root, bind, get_tts_model, ret.
    now rewrite Hm.
  - intros text language speaker_wav. unfold respond.
    rewrite generate_speech_falsy; [reflexivity | now rewrite Hm].
Qed.

Lemma startup_failure_is_absorbed_witness :
  let E := quiet_env (fun _ => Raise (Exception_ "OSError" "no network")) in
  exists w',
    startup_event E (initial_world ∅) = (Return tt, w')
    /\ tts_model w' = None
    /\ fs w' = fs (initial_world ∅)
    /\ stdout w' =
       (stdout (initial_world ∅) ++
        [loading_banner; device_line E;
         "❌ Failed to load model: no network"])%list
    /\ get_root w' = (health_payload false, w')
    /\ forall text language speaker_wav,
         respond (generate_speech E text language speaker_wav) w'
         = (unavailable, w').
Proof.
  intros E.
  apply (startup_failure_is_absorbed E (initial_world ∅)
           (Exception_ "OSError" "no network")).
  - reflexivity.
  - left. reflexivity.
Defined.

(** C8: the device is "cuda" when CUDA is available, otherwise "mps" when
    MPS is available, otherwise "cpu"; the named model is constructed and
    then moved to exactly that device, and the handle is the object that
    the move returned. *)
Theorem startup_loads_on_probed_device (E : Env) (w : world) :
  probe_device E =
  (if cuda_is_available E then "cuda"
   else if mps_is_available E then "mps" else "cpu")
  /\ exists w',
       startup_event E w = (Return tt, w')
       /\ match TTS_init E xtts_v2 with
          | Raise _ =>
              trace w' = (trace w ++ [EvTTS xtts_v2])%list
              /\ tts_model w' = tts_model w
          | Return m0 =>
              trace w' = (trace w ++ [EvTTS xtts_v2; EvTo (probe_device E)])%list
              /\ tts_model w' =
                 match TTS_to E m0 (probe_device E) with
                 | Return m => Some m
                 | Raise _ => tts_model w
                 end
          end.
Proof.
  split; [reflexivity |].
  rewrite startup_event_unfold. cbv zeta.
  destruct (TTS_init E xtts_v2) as [m0 | e].
  - destruct (TTS_to E m0 (probe_device E)) as [m | e];
      (eexists; split; [reflexivity |]; cbn; split; [| reflexivity];
       now rewrite <- !app_assoc).
  - eexists; split; [reflexivity |]. cbn. split; reflexivity.
Qed.

(** ** Request validation *)

(** C7: a form without [text], with an empty [text], or without
    [speaker_wav] is answered 422 and the handler is not called (the
    world, and with it the trace of model calls, is unchanged); when only
    [language] is absent the handler is called with "en". *)
Theorem post_generate_validation (E : Env) (form : FormData) (w : world) :
  (form_text form = None \/ form_text form = Some "" \/
   form_speaker_wav form = None ->
   post_generate E form w = (validation_error (missing_fields form), w)
   /\ missing_fields form <> [])
  /\ (forall text speaker_wav,
        form_text form = Some text -> text <> "" ->
        form_speaker_wav form = Some speaker_wav ->
        form_language form = None ->
        post_generate E form w
        = respond (generate_speech E text "en" speaker_wav) w).
Proof.
  split.
  - intros H. unfold post_generate, missing_fields, validation_error.
    destruct form as [t l u]; simpl in *.
    destruct H as [-> | [-> | ->]]; simpl.
    + split; [reflexivity | discriminate].
    + split; [reflexivity | discriminate].
    + destruct (bind_form decl_text t), (bind_form decl_language l);
        (split; [reflexivity |]); simpl; try discriminate.
  - intros text speaker_wav Ht Hne Hu Hl. unfold post_generate.
    rewrite Ht, Hu, Hl. destruct text as [| c text]; [congruence |].
    reflexivity.
Qed.

Lemma post_generate_validation_witness :
  let E := quiet_env (fun _ => Return working_model) in
  let w := world_with (Some working_model) in
  let no_text :=
    {| form_text := None; form_language := Some "en";
       form_speaker_wav := Some sample_upload |} in
  let no_language :=
    {| form_text := Some "hello"; form_language := None;
       form_speaker_wav := Some sample_upload |} in
  (post_generate E no_text w = (validation_error ["text"], w)
   /\ missing_fields no_text <> [])
  /\ post_generate E no_language w
     = respond (generate_speech E "hello" "en" sample_upload) w.
Proof.
  intros E w no_text no_language. split.
  - apply (proj1 (post_generate_validation E no_text w)).
    left. reflexivity.
  - apply (proj2 (post_generate_validation E no_language w)
             "hello" sample_upload); [reflexivity | discriminate | reflexivity | reflexivity].
Defined.

(** ** Process start *)

Section ProcessStart.
Import Imports.

Lemma module_getattr_setattr (ns : module_ns) name v :
  module_getattr (module_setattr name v ns) name = Return v.
Proof.
  unfold module_getattr, module_setattr. cbn [attrs].
  now rewrite lookup_insert_eq.
Qed.

(** C5, on the code: loading [main] never loads the shim.  Whatever is
    installed, [patch_transformers] is not among the loaded modules, nothing
    has been printed by it and the [transformers] namespace is as the
    package left it; with the class only at its new location, the import
    of the synthesis library at line 5 fails to resolve it. *)
Theorem main_never_loads_shim :
  (forall site : Site,
     let st := snd (run_main site) in
     shim_loaded st = false
     /\ transformers st = transformers_init site
     /\ printed st = [])
  /\ fst (run_main moved_site)
     = Raise (Exception_ "ImportError"
                "cannot import name 'BeamSearchScorer' from 'transformers'")
  /\ module_getattr (transformers (snd (run_main moved_site))) "BeamSearchScorer"
     = Raise (AttributeError "BeamSearchScorer").
Proof.
  split; [| split; vm_compute; reflexivity].
  intros site. cbv zeta.
  unfold run_main, main_imports, TTS_api, import_module, import_, bind, ret,
    raise, get_transformers, fresh_interp, shim_loaded.
  cbn.
  destruct (module_getattr (transformers_init site) "BeamSearchScorer");
    cbn; auto.
Qed.

(** *** The shim itself does what its docstring says *)

Lemma preserves_ret {A} P (a : A) : preserves P (ret a).
Proof. intros st o st' HP H. inversion H; subst. exact HP. Qed.

Lemma preserves_raise {A} P e : preserves P (@raise interp A e).
Proof. intros st o st' HP H. inversion H; subst. exact HP. Qed.

Lemma preserves_lift {A} P (x : outcome A) : preserves P (lift x).
Proof. intros st o st' HP H. inversion H; subst. exact HP. Qed.

Lemma preserves_get P : preserves P get_transformers.
Proof. intros st o st' HP H. inversion H; subst. exact HP. Qed.

Lemma preserves_bind {A B} P (m : ST interp A) (k : A -> ST interp B) :
  preserves P m -> (forall a, preserves P (k a)) -> preserves P (bind m k).
Proof.
  intros Hm Hk st o st' HP H. unfold bind in H.
  destruct (m st) as [[a | e] st1] eqn:Hm1.
  - eapply Hk; [eapply Hm; eauto | exact H].
  - inversion H; subst. eapply Hm; eauto.
Qed.

Lemma preserves_try_except {A} P (m : ST interp A) h :
  preserves P m -> (forall e, preserves P (h e)) -> preserves P (try_except m h).
Proof.
  intros Hm Hh st o st' HP H. unfold try_except in H.
  destruct (m st) as [[a | e] st1] eqn:Hm1.
  - inversion H; subst. eapply Hm; eauto.
  - eapply Hh; [eapply Hm; eauto | exact H].
Qed.

Lemma has_symbol_iprint c s : preserves (has_symbol c) (iprint s).
Proof. intros st o st' HP H. inversion H; subst. exact HP. Qed.

Lemma has_symbol_setattr_other c name v :
  name <> "BeamSearchScorer" ->
  preserves (has_symbol c) (setattr_transformers name v).
Proof.
  intros Hne st o st' HP H. inversion H; subst.
  unfold has_symbol in *. cbn. now rewrite lookup_insert_ne.
Qed.

Lemma has_symbol_import c name : preserves (has_symbol c) (import_ name).
Proof.
  intros st o st' HP H. unfold import_, import_module, ret in H.
  destruct (loaded name st); inversion H; subst; exact HP.
Qed.

Lemma has_symbol_resolves c st :
  has_symbol c st -> module_getattr (transformers st) "BeamSearchScorer" = Return c.
Proof. unfold has_symbol, module_getattr. now intros ->. Qed.

Lemma has_symbol_set_hook c f : preserves (has_symbol c) (set_getattr_hook f).
Proof. intros st o st' HP H. inversion H; subst. exact HP. Qed.

Lemma establishes_then_preserves {A B} P (m : ST interp A) (k : A -> ST interp B) :
  establishes P m -> (forall a, preserves P (k a)) -> establishes P (bind m k).
Proof.
  intros Hm Hk st o st' H. unfold bind in H.
  destruct (m st) as [[a | e] st1] eqn:Hm1.
  - eapply Hk; [eapply Hm; eauto | exact H].
  - inversion H; subst. eapply Hm; eauto.
Qed.

Lemma establishes_after_total {A B} P (Q : A -> Prop) (m : ST interp A)
    (k : A -> ST interp B) :
  (forall st, exists a st1, m st = (Return a, st1) /\ Q a) ->
  (forall a, Q a -> establishes P (k a)) -> establishes P (bind m k).
Proof.
  intros Hm Hk st o st' H. unfold bind in H.
  destruct (Hm st) as (a & st1 & Hm1 & HQ). rewrite Hm1 in H.
  eapply Hk; eauto.
Qed.

Lemma establishes_try_except {A} P (m : ST interp A) h :
  establishes P m -> (forall e, preserves P (h e)) ->
  establishes P (try_except m h).
Proof.
  intros Hm Hh st o st' H. unfold try_except in H.
  destruct (m st) as [[a | e] st1] eqn:Hm1.
  - inversion H; subst. eapply Hm; eauto.
  - eapply Hh; [eapply Hm; eauto | exact H].
Qed.

Lemma import_total name st :
  exists a st1, import_ name st = (Return a, st1) /\ True.
Proof.
  unfold import_, import_module, ret. destruct (loaded name st); eauto.
Qed.

(** *** The import system's bindings *)

Lemma load_submodules_cons n rest st :
  load_submodules (n :: rest) st = load_submodules rest (snd (load_submodule n st)).
Proof.
  cbn [load_submodules]. unfold bind, load_submodule.
  destruct (loaded ("transformers." ++ n) st); reflexivity.
Qed.

Lemma load_submodules_returns names st :
  fst (load_submodules names st) = Return tt.
Proof.
  revert st. induction names as [| n rest IH]; intros st; [reflexivity |].
  rewrite load_submodules_cons. apply IH.
Qed.

Lemma load_submodules_printed names st :
  printed (snd (load_submodules names st)) = printed st.
Proof.
  revert st. induction names as [| n rest IH]; intros st; [reflexivity |].
  rewrite load_submodules_cons, IH. unfold load_submodule.
  destruct (loaded ("transformers." ++ n) st); reflexivity.
Qed.

Lemma load_submodules_hook names st :
  getattr_hook (transformers (snd (load_submodules names st)))
  = getattr_hook (transformers st).
Proof.
  revert st. induction names as [| n rest IH]; intros st; [reflexivity |].
  rewrite load_submodules_cons, IH. unfold load_submodule.
  destruct (loaded ("transformers." ++ n) st); reflexivity.
Qed.

Lemma load_submodules_attrs_other names st name :
  ~ In name names ->
  attrs (transformers (snd (load_submodules names st))) !! name
  = attrs (transformers st) !! name.
Proof.
  revert st. induction names as [| n rest IH]; intros st Hn; [reflexivity |].
  rewrite load_submodules_cons, IH by (intros H; apply Hn; now right).
  unfold load_submodule.
  destruct (loaded ("transformers." ++ n) st); [reflexivity |].
  cbn. apply lookup_insert_ne. intros ->. apply Hn. now left.
Qed.

Lemma loaded_app name l st :
  loaded name (set_sys_modules (sys_modules st ++ l)%list st)
  = loaded name st || existsb (String.eqb name) l.
Proof. unfold loaded. cbn. apply existsb_app. Qed.

Lemma load_submodule_mono n m st :
  loaded m st = true -> loaded m (snd (load_submodule n st)) = true.
Proof.
  intros H. unfold load_submodule.
  destruct (loaded ("transformers." ++ n) st); [exact H |].
  cbn [snd]. unfold loaded in *. cbn. rewrite existsb_app, H. reflexivity.
Qed.

Lemma load_submodules_mono names m st :
  loaded m st = true -> loaded m (snd (load_submodules names st)) = true.
Proof.
  revert st. induction names as [| n rest IH]; intros st H; [exact H |].
  rewrite load_submodules_cons. apply IH, load_submodule_mono, H.
Qed.

Lemma load_submodule_loaded n st :
  loaded ("transformers." ++ n) (snd (load_submodule n st)) = true.
Proof.
  unfold load_submodule.
  destruct (loaded ("transformers." ++ n) st) eqn:H; [exact H |].
  cbn [snd]. unfold loaded. cbn. rewrite existsb_app. cbn.
  rewrite String.eqb_refl. apply orb_true_iff. right. reflexivity.
Qed.

Lemma load_submodules_loaded names n st :
  In n names ->
  loaded ("transformers." ++ n) (snd (load_submodules names st)) = true.
Proof.
  revert st. induction names as [| a rest IH]; intros st Hin; [destruct Hin |].
  rewrite load_submodules_cons. destruct Hin as [-> | Hin].
  - apply load_submodules_mono, load_submodule_loaded.
  - now apply IH.
Qed.

(** Once everything is loaded, the import binds nothing. *)
Lemma load_submodules_noop names st :
  (forall n, In n names -> loaded ("transformers." ++ n) st = true) ->
  load_submodules names st = (Return tt, st).
Proof.
  induction names as [| a rest IH]; intros H; [reflexivity |].
  rewrite load_submodules_cons. unfold load_submodule.
  rewrite (H a) by now left. cbn [snd]. apply IH.
  intros n Hn. apply H. now right.
Qed.

Lemma load_submodules_keeps names n st :
  loaded ("transformers." ++ n) st = true ->
  attrs (transformers (snd (load_submodules names st))) !! n
  = attrs (transformers st) !! n.
Proof.
  revert st. induction names as [| a rest IH]; intros st H; [reflexivity |].
  rewrite load_submodules_cons, IH by now apply load_submodule_mono.
  unfold load_submodule.
  destruct (loaded ("transformers." ++ a) st) eqn:Ha; [reflexivity |].
  cbn. apply lookup_insert_ne. intros ->. congruence.
Qed.

(** A submodule loaded for the first time is bound under its name. *)
Lemma load_submodules_binds names n st :
  In n names ->
  loaded ("transformers." ++ n) st = false ->
  attrs (transformers (snd (load_submodules names st))) !! n
  = Some (PyModule ("transformers." ++ n)).
Proof.
  revert st. induction names as [| a rest IH]; intros st Hin Hl; [destruct Hin |].
  rewrite load_submodules_cons.
  destruct (String.eqb_spec a n) as [-> | Hne].
  - rewrite load_submodules_keeps by apply load_submodule_loaded.
    unfold load_submodule. rewrite Hl. cbn. apply lookup_insert_eq.
  - destruct Hin as [-> | Hin]; [congruence |].
    apply IH; [exact Hin |].
    unfold load_submodule.
    destruct (loaded ("transformers." ++ a) st); [exact Hl |].
    cbn [snd]. unfold loaded in *. cbn. rewrite existsb_app, Hl. cbn.
    rewrite orb_false_r. apply String.eqb_neq.
    intros Heq. apply Hne. symmetry.
    now apply (inj (String.append "transformers.")) in Heq.
Qed.

Lemma loads_not_all (site : Site) : ~ In "__all__" (beam_search_loads site).
Proof.
  intros Hin. pose proof (beam_search_loads_ok site) as Hok.
  rewrite forallb_forall in Hok. specialize (Hok _ Hin). discriminate.
Qed.

Lemma from_import_returns (site : Site) (c : pyobj) (st : interp) :
  beam_search_BeamSearchScorer site = Return c ->
  from_beam_search_import site st
  = (Return c, snd (load_submodules (beam_search_loads site) st)).
Proof.
  intros Hc. unfold from_beam_search_import, bind, lift.
  pose proof (load_submodules_returns (beam_search_loads site) st) as Hr.
  destruct (load_submodules (beam_search_loads site) st) as [o st1].
  cbn in Hr. subst o. now rewrite Hc.
Qed.

Lemma from_import_raises (site : Site) (e : exn) (st : interp) :
  beam_search_BeamSearchScorer site = Raise e ->
  from_beam_search_import site st
  = (Raise e, snd (load_submodules (beam_search_loads site) st)).
Proof.
  intros Hc. unfold from_beam_search_import, bind, lift.
  pose proof (load_submodules_returns (beam_search_loads site) st) as Hr.
  destruct (load_submodules (beam_search_loads site) st) as [o st1].
  cbn in Hr. subst o. now rewrite Hc.
Qed.

Ltac keeps_symbol :=
  repeat first
    [ apply preserves_ret | apply preserves_raise | apply preserves_lift
    | apply preserves_get | apply has_symbol_iprint | apply has_symbol_set_hook
    | apply has_symbol_setattr_other; discriminate
    | apply preserves_bind; [| intros ?]
    | match goal with
      | |- preserves _ (if ?b then _ else _) => destruct b
      | |- preserves _ (match ?x with _ => _ end) => destruct x
      end ].

(** When the class can be imported from its new location, then after
    [patch_transformers] has run it resolves under the top-level name. *)
Lemma shim_establishes_symbol (site : Site) (c : pyobj) :
  beam_search_BeamSearchScorer site = Return c ->
  establishes (has_symbol c) (patch_transformers site).
Proof.
  intros Hc. unfold patch_transformers.
  apply establishes_after_total with (Q := fun _ => True);
    [apply import_total | intros _ _].
  apply establishes_try_except; [| intros e; apply has_symbol_iprint].
  unfold patch_body.
  apply establishes_after_total with (Q := fun b => b = c);
    [intros st; rewrite (from_import_returns site c st Hc); eauto | intros b ->].
  apply establishes_then_preserves.
  - intros st o st' H. inversion H; subst.
    unfold has_symbol. cbn. apply lookup_insert_eq.
  - intros _. keeps_symbol.
Qed.

(** X9: when the class can be imported from its new location, then after
    [patch_transformers] has run, from any interpreter state, the name
    [BeamSearchScorer] resolves in the [transformers] namespace to that
    class. *)
Lemma shim_makes_symbol_resolvable (site : Site) (c : pyobj) (st : interp) :
  beam_search_BeamSearchScorer site = Return c ->
  module_getattr (transformers (snd (patch_transformers site st)))
    "BeamSearchScorer" = Return c.
Proof.
  intros Hc. apply has_symbol_resolves.
  destruct (patch_transformers site st) as [o st'] eqn:H.
  exact (shim_establishes_symbol site c Hc st o st' H).
Qed.

(** The shim never raises: its [except] clause only prints. *)
Lemma patch_transformers_returns (site : Site) (st : interp) :
  exists st', patch_transformers site st = (Return tt, st').
Proof.
  unfold patch_transformers, bind at 1.
  destruct (import_total "transformers" st) as ([] & st1 & -> & _).
  unfold try_except.
  destruct (patch_body site st1) as [[[] | e] st2]; [eauto |].
  unfold iprint. eauto.
Qed.

(** With the shim loaded ahead of it, the import at line 5 of main.py
    finds the symbol. *)
Lemma shim_first_lets_TTS_api_load (site : Site) (c : pyobj) :
  beam_search_BeamSearchScorer site = Return c ->
  fst ((import_module "patch_transformers" (patch_transformers site) ;;;
        import_module "TTS.api" TTS_api) (fresh_interp site))
  = Return tt.
Proof.
  intros Hc.
  unfold bind at 1.
  destruct (import_module "patch_transformers" (patch_transformers site)
              (fresh_interp site)) as [o st1] eqn:H1.
  unfold import_module in H1. cbn [loaded fresh_interp sys_modules existsb] in H1.
  destruct (patch_transformers site _) as [o' st'] eqn:Hp.
  pose proof (shim_establishes_symbol site c Hc _ _ _ Hp) as Hsym.
  assert (Hret : o = Return tt /\ has_symbol c st1).
  { destruct (patch_transformers_returns site
                (set_sys_modules ([] ++ ["patch_transformers"]) (fresh_interp site)))
      as [st'' Hr].
    rewrite Hr in Hp. inversion Hp; subst o' st''.
    inversion H1; subst; auto. }
  destruct Hret as [-> Hst1].
  unfold import_module.
  destruct (loaded "TTS.api" st1); [reflexivity |].
  set (st2 := set_sys_modules _ st1).
  assert (H2 : has_symbol c st2) by exact Hst1.
  unfold TTS_api, bind at 1.
  destruct (import_ "transformers" st2) as [o3 st3] eqn:H3.
  assert (Ho3 : o3 = Return tt /\ has_symbol c st3).
  { unfold import_, import_module, ret in H3.
    destruct (loaded "transformers" st2); inversion H3; subst; auto. }
  destruct Ho3 as [-> Hst3].
  unfold bind, get_transformers. rewrite (has_symbol_resolves c st3 Hst3).
  reflexivity.
Qed.

End ProcessStart.

(** * Further properties *)

(** ** The handler on every path *)

Ltac unfold_request :=
  unfold generate_speech, generate_body, with_, try_except, bind, ret, raise,
    get_tts_model, print, NamedTemporaryFile, close, copyfileobj, open_rb,
    read, os_remove, call_tts_to_file.

Ltac split_goal_match :=
  match goal with
  | |- context [match ?x with _ => _ end] =>
      lazymatch x with
      | context [match _ with _ => _ end] => fail
      | _ => destruct x eqn:?
      end
  | |- context [if ?x then _ else _] => destruct x eqn:?
  end.

Ltac request_paths :=
  unfold_request;
  repeat (split_goal_match;
          cbn [fst snd fs tts_model trace stdout set_fs add_trace add_stdout]).

Ltac close_with_prefix n :=
  eexists _, _; exists n;
  cbn [take request_calls app]; rewrite <- ?app_assoc, ?app_nil_r;
  cbn [app]; reflexivity.

(** X1: whatever happens to a request, the library calls the handler has
    made are an initial part of the sequence create, copy, synthesise, read,
    remove, remove: nothing is removed before the output has been read, and
    the model is not called before the upload has been copied. *)
Theorem handler_calls_in_order (E : Env) text language speaker_wav (w : world) :
  exists p audio n,
    trace (snd (generate_speech E text language speaker_wav w))
    = (trace w ++ take n (request_calls p text language speaker_wav audio))%list.
Proof.
  request_paths.
  all: first [ close_with_prefix 0 | close_with_prefix 1 | close_with_prefix 2
             | close_with_prefix 3 | close_with_prefix 4 | close_with_prefix 5
             | close_with_prefix 6 ].
  Unshelve. all: first [exact "" | exact []].
Qed.

Lemma generate_speech_keeps_model (E : Env) text language speaker_wav
    (w : world) :
  tts_model (snd (generate_speech E text language speaker_wav w)) = tts_model w.
Proof. request_paths; (reflexivity || congruence). Qed.

Lemma respond_snd (h : M handler_result) (w : world) :
  snd (respond h w) = snd (h w).
Proof.
  unfold respond. destruct (h w) as [[[d | c mt] | [cls msg | c d]] w'];
    reflexivity.
Qed.

(** X2: no request rebinds the global: after [POST /generate], on any path
    and for any form, and after [GET /], [tts_model] is what it was. *)
Theorem routes_never_rebind_model (E : Env) (form : FormData) (w : world) :
  tts_model (snd (post_generate E form w)) = tts_model w
  /\ tts_model (snd (get_root w)) = tts_model w.
Proof.
  split; [| reflexivity].
  unfold post_generate.
  destruct (bind_form decl_text (form_text form)); [| reflexivity].
  destruct (bind_form decl_language (form_language form)); [| reflexivity].
  destruct (form_speaker_wav form); [| reflexivity].
  rewrite respond_snd. apply generate_speech_keeps_model.
Qed.

(** ** The filesystem after a request *)

(** X3: with a model that writes nothing but its [file_path], a request
    that succeeds leaves the disk as it found it, except that whatever was
    at the output path is gone. *)
Theorem success_restores_disk (E : Env) text language speaker_wav
    (w w' : world) (r : handler_result) (m : TTS) :
  generate_speech E text language speaker_wav w = (Return r, w') ->
  tts_model w = Some m ->
  writes_only_file_path m ->
  exists p,
    first_free E ".wav" (candidate_names E) (fs w) = Some p
    /\ fs w' = delete (replace p ".wav" "_output.wav") (fs w).
Proof.
  intros H Hm Honly.
  apply generate_speech_inv_Return in H as [_ H].
  apply generate_body_inv_Return in H
    as (p & m' & disk & audio & Hm' & Hf & Hne & Hs & _ & _ & Hfs & _).
  rewrite Hm in Hm'. inversion Hm'; subst m'; clear Hm'.
  exists p. split; [exact Hf |].
  rewrite Hfs. apply map_eq. intros q.
  destruct (decide (q = replace p ".wav" "_output.wav")) as [-> | Hq].
  - now rewrite !lookup_delete_eq.
  - rewrite (lookup_delete_ne (delete p disk)), (lookup_delete_ne (fs w))
      by congruence.
    destruct (decide (q = p)) as [-> | Hqp].
    + rewrite lookup_delete_eq. symmetry.
      exact (first_free_fresh E _ _ _ _ Hf).
    + rewrite lookup_delete_ne by congruence.
      rewrite (Honly _ _ _ _ _ _ _ Hs q Hq).
      now rewrite lookup_insert_ne by congruence.
Qed.

Lemma working_model_writes_only_file_path : writes_only_file_path working_model.
Proof.
  intros text speaker_wav language file_path disk o disk' H q Hq.
  cbn in H. inversion H; subst. now rewrite lookup_insert_ne by congruence.
Qed.

Lemma success_restores_disk_witness :
  let E := quiet_env (fun _ => Return working_model) in
  let w := world_with (Some working_model) in
  exists p,
    first_free E ".wav" (candidate_names E) (fs w) = Some p
    /\ fs (snd (generate_speech E "hello" "en" sample_upload w))
       = delete (replace p ".wav" "_output.wav") (fs w).
Proof.
  intros E w.
  apply (success_restores_disk E "hello" "en" sample_upload w
           (snd (generate_speech E "hello" "en" sample_upload w))
           (StreamingResponse [x52; x49; x46; x46; x00; x01] "audio/wav")
           working_model).
  - vm_compute. reflexivity.
  - reflexivity.
  - exact working_model_writes_only_file_path.
Defined.

(** X4: when the copy of the upload into the temporary file fails, the
    handler raises the 500 error with that failure's message, the model is
    never called, and the temporary file, holding what had been written, is
    left on disk. *)
Theorem copy_failure_leaves_partial_file (E : Env) text language speaker_wav
    (w : world) (p : string) (e : exn) :
  truth (tts_model w) = true ->
  io_fault E AtCreate = None ->
  first_free E ".wav" (candidate_names E) (fs w) = Some p ->
  io_fault E AtCopy = Some e ->
  io_fault E (AtClose p) = None ->
  exists w',
    generate_speech E text language speaker_wav w
    = (Raise (HTTPException 500 (str e)), w')
    /\ fs w !! p = None
    /\ fs w' !! p = Some (take (copy_progress E) (file speaker_wav))
    /\ trace w' = (trace w ++ [EvNamedTemporaryFile p])%list.
Proof.
  intros Ht Hc Hf Hcp Hcl.
  assert (Hbody : generate_body E text language speaker_wav w
                  = (Raise e,
                     set_fs (<[p := take (copy_progress E) (file speaker_wav)]> (fs w))
                       (add_trace (EvNamedTemporaryFile p) w))).
  { unfold generate_body, with_, bind, NamedTemporaryFile, copyfileobj, close.
    rewrite Hc, Hf, Hcp. cbn [fs set_fs add_trace]. rewrite Hcl.
    rewrite lookup_insert_eq, insert_insert_eq. reflexivity. }
  eexists. split; [exact (generate_speech_catches E _ _ _ w e _ Ht Hbody) |].
  split; [exact (first_free_fresh E _ _ _ _ Hf) |].
  cbn [fs trace set_fs add_trace add_stdout].
  split; [apply lookup_insert_eq | reflexivity].
Qed.

Lemma copy_failure_leaves_partial_file_witness :
  let w := world_with (Some working_model) in
  let p := "/tmp/tmpk3x9_q2a.wav" in
  exists w',
    generate_speech copy_fault_env "hello" "en" sample_upload w
    = (Raise (HTTPException 500 "[Errno 28] No space left on device"), w')
    /\ fs w !! p = None
    /\ fs w' !! p = Some [x52; x49]
    /\ trace w' = (trace w ++ [EvNamedTemporaryFile p])%list.
Proof.
  intros w p.
  apply (copy_failure_leaves_partial_file copy_fault_env "hello" "en"
           sample_upload w p
           (Exception_ "OSError" "[Errno 28] No space left on device"));
    reflexivity.
Defined.






Lemma synthesis_failure_keeps_reference_witness :
  let E := quiet_env (fun _ => Return failing_model) in
  let w := world_with (Some failing_model) in
  let p := "/tmp/tmpk3x9_q2a.wav" in
  exists w',
    generate_speech E "hello" "xx" sample_upload w
    = (Raise (HTTPException 500 "Language xx is not supported."), w')
    /\ fs w !! p = None
    /\ fs w' !! p = Some (file sample_upload).
Proof.
  intros E w p.
  apply (synthesis_failure_keeps_reference E "hello" "xx" sample_upload w p
           failing_model
           (Exception_ "ValueError" "Language xx is not supported.")
           (<[p := file sample_upload]> (fs w)) (file sample_upload));
    reflexivity.
Defined.

(** ** The output path *)

Lemma replace_wav_step (a s : string) :
  dotless a = true ->
  replace (a ++ ".wav" ++ s) ".wav" "_output.wav"
  = a ++ "_output.wav" ++ replace s ".wav" "_output.wav".
Proof.
  unfold replace. induction a as [| c a IH]; intros Hd.
  - destruct s; reflexivity.
  - cbn [dotless] in Hd. apply andb_prop in Hd as [Hc Ha].
    change (String c a ++ ".wav" ++ s) with (String c (a ++ ".wav" ++ s)).
    change (String c a ++ "_output.wav" ++ replace_from ".wav" "_output.wav" 0 s)
      with (String c (a ++ "_output.wav" ++ replace_from ".wav" "_output.wav" 0 s)).
    cbn [replace_from String.prefix].
    destruct (ascii_dec "." c) as [<- | Hne]; [discriminate Hc |].
    rewrite (IH Ha). reflexivity.
Qed.

(** X6: line 63 on a path [a.wav] whose stem [a] has no dot gives
    [a_output.wav]; when the directory part itself contains ".wav", as in
    [a.wav<b>.wav], that occurrence is rewritten as well, so the output path
    lies in another directory. *)
Theorem output_path_shape (a b : string) :
  dotless a = true ->
  replace (a ++ ".wav") ".wav" "_output.wav" = a ++ "_output.wav"
  /\ (dotless b = true ->
      replace (a ++ ".wav" ++ b ++ ".wav") ".wav" "_output.wav"
      = a ++ "_output.wav" ++ b ++ "_output.wav").
Proof.
  intros Ha. split.
  - exact (replace_wav_step a "" Ha).
  - intros Hb. rewrite (replace_wav_step a _ Ha).
    do 2 f_equal. exact (replace_wav_step b "" Hb).
Qed.

Lemma output_path_shape_witness :
  replace ("/tmp/tmpk3x9_q2a" ++ ".wav") ".wav" "_output.wav"
  = "/tmp/tmpk3x9_q2a" ++ "_output.wav"
  /\ replace ("/data/voices" ++ ".wav" ++ "/tmpk3x9_q2a" ++ ".wav")
       ".wav" "_output.wav"
     = "/data/voices" ++ "_output.wav" ++ "/tmpk3x9_q2a" ++ "_output.wav".
Proof.
  destruct (output_path_shape "/tmp/tmpk3x9_q2a" "" eq_refl) as [H1 _].
  destruct (output_path_shape "/data/voices" "/tmpk3x9_q2a" eq_refl) as [_ H2].
  split; [exact H1 | exact (H2 eq_refl)].
Defined.

(** ** The order of the checks on [POST /generate] *)

(** X7: the checks come in a fixed order.  A form with a required field
    missing is answered 422 whatever the state of the model; a complete
    form is answered 503 when the handle is falsy; otherwise the answer is
    200 or 500. *)
Theorem post_generate_status_order (E : Env) (form : FormData) (w : world) :
  let code := status (fst (post_generate E form w)) in
  (missing_fields form <> [] -> code = 422)
  /\ (missing_fields form = [] -> truth (tts_model w) = false -> code = 503)
  /\ (missing_fields form = [] -> truth (tts_model w) = true ->
      code = 200 \/ code = 500).
Proof.
  cbv zeta. split; [| split].
  - intros Hm. unfold post_generate, missing_fields in *.
    destruct (bind_form decl_text (form_text form)); [| reflexivity].
    destruct (bind_form decl_language (form_language form)); [| reflexivity].
    destruct (form_speaker_wav form); [| reflexivity].
    now contradiction Hm.
  - intros Hm Ht.
    destruct (post_generate_bound E form w Hm) as (t & l & u & ->).
    unfold respond. now rewrite generate_speech_falsy.
  - intros Hm Ht.
    destruct (post_generate_bound E form w Hm) as (t & l & u & ->).
    unfold respond.
    destruct (generate_speech E t l u w) as [[r | e] w'] eqn:H.
    + left. apply generate_speech_inv_Return in H as [_ H].
      apply generate_body_inv_Return in H
        as (p & m' & disk & audio & _ & _ & _ & _ & _ & _ & _ & ->).
      reflexivity.
    + right.
      destruct (generate_body E t l u w) as [[r | e0] w1] eqn:Hb.
      * unfold generate_speech, bind at 1, get_tts_model in H.
        rewrite Ht in H. cbn [negb] in H.
        rewrite (try_except_Return _ _ _ _ _ Hb) in H. discriminate.
      * rewrite (generate_speech_catches E t l u w e0 w1 Ht Hb) in H.
        inversion H; subst. reflexivity.
Qed.

Lemma post_generate_status_order_witness :
  let E := quiet_env (fun _ => Return working_model) in
  let no_file :=
    {| form_text := Some "hello"; form_language := None;
       form_speaker_wav := None |} in
  let full :=
    {| form_text := Some "hello"; form_language := Some "en";
       form_speaker_wav := Some sample_upload |} in
  status (fst (post_generate E no_file (world_with None))) = 422
  /\ status (fst (post_generate E full (world_with None))) = 503
  /\ (status (fst (post_generate E full (world_with (Some working_model)))) = 200
      \/ status (fst (post_generate E full (world_with (Some working_model)))) = 500).
Proof.
  intros E no_file full.
  split; [| split].
  - apply (proj1 (post_generate_status_order E no_file (world_with None))).
    discriminate.
  - apply (proj1 (proj2 (post_generate_status_order E full (world_with None))));
      reflexivity.
  - apply (proj2 (proj2 (post_generate_status_order E full
                           (world_with (Some working_model)))));
      reflexivity.
Defined.

(** ** Startup followed by the health route *)

(** X8: after [startup_event] has run in a freshly initialised module,
    [GET /] reports [model_loaded] true exactly when both the construction
    of the model and its move to the device returned. *)
Theorem health_after_startup (E : Env) (disk : gmap string (list byte)) :
  let w' := snd (startup_event E (initial_world disk)) in
  get_root w' = (health_payload (load_succeeds E), w').
Proof.
  cbv zeta. rewrite startup_event_unfold. cbv zeta. unfold load_succeeds.
  destruct (TTS_init E xtts_v2) as [m0 | e]; [| reflexivity].
  destruct (TTS_to E m0 (probe_device E)) as [m | e]; reflexivity.
Qed.

(** ** The shim *)

Section Shim.
Import Imports.

Ltac split_shim :=
  match goal with
  | |- context [match ?x with _ => _ end] =>
      lazymatch x with
      | context [match _ with _ => _ end] => fail
      | _ => destruct x eqn:?
      end
  | |- context [if ?x then _ else _] => destruct x eqn:?
  end.

Ltac ns_simpl :=
  cbn [fst snd sys_modules transformers printed set_transformers
         set_sys_modules negb attrs getattr_hook module_setattr];
  repeat first [ rewrite lookup_insert_eq
               | rewrite lookup_insert_ne by discriminate ].

Lemma shim_makes_symbol_resolvable_witness :
  module_getattr
    (transformers (snd (patch_transformers moved_site (fresh_interp moved_site))))
    "BeamSearchScorer"
  = Return BeamSearchScorer_class.
Proof.
  apply (shim_makes_symbol_resolvable moved_site BeamSearchScorer_class
           (fresh_interp moved_site)).
  reflexivity.
Defined.

(** *** What one run of the shim does to the interpreter *)

Lemma import_facts (name : string) (st : interp) :
  let st0 := snd (import_ name st) in
  fst (import_ name st) = Return tt
  /\ transformers st0 = transformers st
  /\ printed st0 = printed st
  /\ (forall m, loaded m st = true -> loaded m st0 = true)
  /\ (forall m, String.eqb m name = false -> loaded m st0 = loaded m st).
Proof.
  cbv zeta. unfold import_, import_module, ret.
  destruct (loaded name st) eqn:Hl; cbn [fst snd]; [auto 10 |].
  repeat split; auto.
  - intros m Hm. unfold loaded in *. cbn. now rewrite existsb_app, Hm.
  - intros m Hm. unfold loaded. cbn. rewrite existsb_app. cbn.
    rewrite Hm. now rewrite !orb_false_r.
Qed.

(** After the from-import has returned [c], the rest of the [try] body
    takes the namespace to [patched_ns c] of it and loads no module. *)
Lemma patch_body_result (site : Site) (c : pyobj) (st : interp) :
  beam_search_BeamSearchScorer site = Return c ->
  let st1 := snd (load_submodules (beam_search_loads site) st) in
  transformers (snd (patch_body site st)) = patched_ns c (transformers st1)
  /\ sys_modules (snd (patch_body site st)) = sys_modules st1.
Proof.
  intros Hc st1.
  eassert (Hpb : patch_body site st = _).
  { unfold patch_body. unfold bind at 1.
    rewrite (from_import_returns site c st Hc). fold st1. reflexivity. }
  rewrite Hpb. clear Hpb. clearbody st1.
  unfold patched_ns, add_to_all, install_hook.
  unfold bind, lift, ret, raise, get_transformers, setattr_transformers,
    set_getattr_hook, iprint.
  cbn [fst snd sys_modules transformers printed set_transformers
         set_sys_modules negb].
  repeat (split_shim;
          cbn [fst snd sys_modules transformers printed set_transformers
                 set_sys_modules negb module_setattr attrs getattr_hook]).
  all: try (split; reflexivity).
  all: try (split; congruence).
  all: cbn [negb] in *; congruence.
Qed.

Lemma shim_result (site : Site) (st : interp) :
  let st1 := snd (load_submodules (beam_search_loads site)
                    (snd (import_ "transformers" st))) in
  let stF := snd (patch_transformers site st) in
  fst (patch_transformers site st) = Return tt
  /\ sys_modules stF = sys_modules st1
  /\ transformers stF =
     match beam_search_BeamSearchScorer site with
     | Return c => patched_ns c (transformers st1)
     | Raise _ => transformers st1
     end
  /\ match beam_search_BeamSearchScorer site with
     | Return _ => True
     | Raise e =>
         printed stF =
         (printed st ++
          [("⚠️ Warning: Could not patch BeamSearchScorer: " ++ str e)%string])%list
     end.
Proof.
  cbv zeta.
  destruct (import_facts "transformers" st) as (Hr & _ & Hp & _).
  cbv zeta in *.
  assert (Hpt : patch_transformers site st
                = try_except (patch_body site)
                    (fun e => iprint ("⚠️ Warning: Could not patch BeamSearchScorer: " ++ str e))
                    (snd (import_ "transformers" st))).
  { unfold patch_transformers, bind.
    destruct (import_ "transformers" st) as [o st0]. cbn in Hr. now subst o. }
  rewrite Hpt. clear Hpt.
  set (st0 := snd (import_ "transformers" st)) in *. clearbody st0.
  unfold try_except.
  destruct (beam_search_BeamSearchScorer site) as [c | e] eqn:Hc.
  - destruct (patch_body_result site c st0 Hc) as [Hns Hsm].
    destruct (patch_body site st0) as [[[] | e] st2]; cbn [fst snd] in *;
      auto.
  - assert (Hpb : patch_body site st0
                  = (Raise e, snd (load_submodules (beam_search_loads site) st0))).
    { unfold patch_body. unfold bind at 1.
      now rewrite (from_import_raises site e st0 Hc). }
    rewrite Hpb. cbn [fst snd iprint printed sys_modules transformers].
    rewrite load_submodules_printed, Hp. auto.
Qed.

(** *** The namespace function *)

Lemma patched_ns_other_names (c : pyobj) (ns : module_ns) (name : string) :
  name <> "BeamSearchScorer" -> name <> "__all__" ->
  name <> "_patched_getattr" -> name <> "__getattr__" ->
  module_getattr (patched_ns c ns) name = module_getattr ns name.
Proof.
  intros H1 H2 H3 H4.
  unfold patched_ns, add_to_all, install_hook. cbv zeta.
  repeat (split_shim; cbn [module_setattr attrs getattr_hook]).
  all: match goal with
       | H : Return _ = Return _ |- _ => inversion H; subst; clear H
       | _ => idtac
       end.
  all: repeat match goal with
       | H : Return _ = Return _ |- _ => inversion H; subst; clear H
       end.
  all: unfold module_getattr, module_setattr, patched_getattr;
    cbn [attrs getattr_hook];
    rewrite ?lookup_insert_ne by congruence;
    try reflexivity.
  all: destruct (attrs ns !! name); [reflexivity |].
  all: rewrite (proj2 (String.eqb_neq name "BeamSearchScorer") H1).
  all: destruct (getattr_hook ns); reflexivity.
Qed.

Lemma patched_ns_all (c : pyobj) (ns : module_ns) (items : list string) :
  attrs ns !! "__all__" = Some (PyList items) ->
  attrs (patched_ns c ns) !! "__all__"
  = Some (PyList
            (if existsb (String.eqb "BeamSearchScorer") items then items
             else (items ++ ["BeamSearchScorer"])%list)).
Proof.
  intros Hall.
  unfold patched_ns, add_to_all, install_hook, module_hasattr, module_getattr.
  cbv zeta. ns_simpl. rewrite Hall.
  destruct (existsb (String.eqb "BeamSearchScorer") items); ns_simpl.
  all: repeat (split_shim; ns_simpl); try exact Hall; try reflexivity.
Qed.

Lemma setattr_same (ns : module_ns) name v :
  attrs ns !! name = Some v -> module_setattr name v ns = ns.
Proof.
  intros H. destruct ns as [a h]. unfold module_setattr. cbn in *.
  now rewrite insert_id.
Qed.

(** What the guarded append returns is a namespace it leaves alone. *)
Lemma add_to_all_settles (ns ns' : module_ns) :
  add_to_all ns = Return ns' ->
  add_to_all ns' = Return ns'
  /\ attrs ns' !! "BeamSearchScorer" = attrs ns !! "BeamSearchScorer".
Proof.
  unfold add_to_all.
  destruct (module_hasattr ns "__all__") as [[|] | e] eqn:Hh; [| | discriminate].
  - destruct (module_getattr ns "__all__") as [[| items | q | q] | e] eqn:Hg;
      try discriminate.
    destruct (existsb (String.eqb "BeamSearchScorer") items) eqn:Hin.
    + intros H; inversion H; subst ns'. rewrite Hh, Hg, Hin. auto.
    + destruct (attrs ns !! "__all__") eqn:Ha.
      * intros H; inversion H; subst ns'; clear H.
        unfold module_hasattr, module_getattr, module_setattr.
        cbn [attrs getattr_hook].
        rewrite lookup_insert_eq, !lookup_insert_ne by discriminate.
        rewrite existsb_app. cbn. rewrite orb_true_r. auto.
      * intros H; inversion H; subst ns'. rewrite Hh, Hg, Hin, Ha. auto.
  - intros H; inversion H; subst ns'. rewrite Hh. auto.
Qed.

(** The hook does not change how [__all__] resolves. *)
Lemma hooked_getattr_all (c : pyobj) (ns : module_ns) :
  module_getattr
    {| attrs := <["_patched_getattr" := PyTrue]> (attrs ns);
       getattr_hook := Some (patched_getattr c (getattr_hook ns)) |} "__all__"
  = module_getattr ns "__all__".
Proof.
  unfold module_getattr, patched_getattr. cbn [attrs getattr_hook].
  rewrite lookup_insert_ne by discriminate.
  destruct (attrs ns !! "__all__"); [reflexivity |].
  cbn. destruct (getattr_hook ns); reflexivity.
Qed.

Lemma install_hook_settles (c : pyobj) (ns ns' : module_ns) :
  install_hook c ns = Return ns' ->
  add_to_all ns = Return ns ->
  install_hook c ns' = Return ns'
  /\ add_to_all ns' = Return ns'
  /\ attrs ns' !! "BeamSearchScorer" = attrs ns !! "BeamSearchScorer".
Proof.
  unfold install_hook.
  destruct (module_hasattr ns "_patched_getattr") as [[|] | e] eqn:Hh;
    [| | discriminate].
  - intros H Ha; inversion H; subst ns'. rewrite Hh. auto.
  - intros H Ha; inversion H; subst ns'; clear H.
    split; [| split].
    + unfold module_hasattr, module_getattr. cbn [attrs getattr_hook].
      now rewrite lookup_insert_eq.
    + revert Ha. unfold add_to_all, module_hasattr.
      rewrite hooked_getattr_all.
      destruct (module_getattr ns "__all__") as [[| items | q | q] | e] eqn:Hg;
        try discriminate.
      * destruct (existsb (String.eqb "BeamSearchScorer") items); [reflexivity |].
        cbn [attrs]. rewrite lookup_insert_ne by discriminate.
        destruct (attrs ns !! "__all__") eqn:Hl; [| reflexivity].
        intros Ha. exfalso. inversion Ha as [Heq].
        assert (Hl' : attrs ns !! "__all__"
                      = Some (PyList (items ++ ["BeamSearchScorer"])%list)).
        { rewrite <- Heq at 1. cbn. apply lookup_insert_eq. }
        unfold module_getattr in Hg. rewrite Hl' in Hg.
        inversion Hg as [Hi].
        apply (f_equal (@length string)) in Hi.
        rewrite length_app in Hi. cbn in Hi. lia.
      * destruct (is_AttributeError e); [reflexivity | discriminate].
    + cbn [attrs]. now rewrite lookup_insert_ne by discriminate.
Qed.

Lemma patched_ns_idempotent (c : pyobj) (ns : module_ns) :
  patched_ns c (patched_ns c ns) = patched_ns c ns.
Proof.
  set (ns1 := module_setattr "BeamSearchScorer" c ns).
  assert (H1 : attrs ns1 !! "BeamSearchScorer" = Some c)
    by (unfold ns1; cbn; apply lookup_insert_eq).
  assert (Hfix : forall F, attrs F !! "BeamSearchScorer" = Some c ->
            patched_ns c F =
            match add_to_all F with
            | Raise _ => F
            | Return ns2 =>
                match install_hook c ns2 with
                | Raise _ => ns2
                | Return ns3 => ns3
                end
            end).
  { intros F HF. unfold patched_ns. cbv zeta. now rewrite (setattr_same F _ _ HF). }
  assert (Hp : patched_ns c ns =
               match add_to_all ns1 with
               | Raise _ => ns1
               | Return ns2 =>
                   match install_hook c ns2 with
                   | Raise _ => ns2
                   | Return ns3 => ns3
                   end
               end) by reflexivity.
  rewrite Hp. clear Hp.
  destruct (add_to_all ns1) as [ns2 | e] eqn:Ha.
  - destruct (add_to_all_settles ns1 ns2 Ha) as (Ha2 & Hb2).
    destruct (install_hook c ns2) as [ns3 | e] eqn:Hi.
    + destruct (install_hook_settles c ns2 ns3 Hi Ha2) as (Hi3 & Ha3 & Hb3).
      rewrite Hfix by congruence. now rewrite Ha3, Hi3.
    + rewrite Hfix by congruence. now rewrite Ha2, Hi.
  - rewrite Hfix by exact H1. now rewrite Ha.
Qed.

(** *** Consequences *)

(** X10: when the import from the new location raises, the shim still
    returns normally and prints the warning with the exception's message.
    It leaves the module's [__getattr__] alone and, in its dict, every name
    that is not a submodule loaded by the failed import; such a submodule,
    when loaded for the first time, is left bound under its name.  If
    nothing was loaded, the namespace is exactly as it was. *)
Theorem shim_failure_is_harmless (site : Site) (st : interp) (e : exn) :
  beam_search_BeamSearchScorer site = Raise e ->
  exists st',
    patch_transformers site st = (Return tt, st')
    /\ printed st' =
       (printed st ++
        [("⚠️ Warning: Could not patch BeamSearchScorer: " ++ str e)%string])%list
    /\ getattr_hook (transformers st') = getattr_hook (transformers st)
    /\ (forall name, ~ In name (beam_search_loads site) ->
        attrs (transformers st') !! name = attrs (transformers st) !! name)
    /\ (forall n, In n (beam_search_loads site) ->
        loaded ("transformers." ++ n) st = false ->
        attrs (transformers st') !! n = Some (PyModule ("transformers." ++ n)))
    /\ ((forall n, In n (beam_search_loads site) ->
         loaded ("transformers." ++ n) st = true) ->
        transformers st' = transformers st).
Proof.
  intros He.
  destruct (shim_result site st) as (Hr & _ & Hns & Hpr).
  rewrite He in Hns, Hpr.
  destruct (import_facts "transformers" st) as (_ & Hns0 & _ & Hmono & Hsame).
  cbv zeta in *.
  exists (snd (patch_transformers site st)).
  split; [| split; [exact Hpr |]].
  { destruct (patch_transformers site st) as [o stF]. cbn in Hr. now subst o. }
  rewrite Hns. split; [| split; [| split]].
  - now rewrite load_submodules_hook, Hns0.
  - intros name Hn. now rewrite load_submodules_attrs_other, Hns0.
  - intros n Hin Hl. apply load_submodules_binds; [exact Hin |].
    rewrite Hsame; [exact Hl | reflexivity].
  - intros Hall. rewrite load_submodules_noop; [exact Hns0 |].
    intros n Hn. apply Hmono, Hall, Hn.
Qed.

Lemma shim_failure_is_harmless_witness :
  exists st',
    patch_transformers legacy_site (fresh_interp legacy_site) = (Return tt, st')
    /\ printed st' =
       (printed (fresh_interp legacy_site) ++
        ["⚠️ Warning: Could not patch BeamSearchScorer: No module named 'transformers.generation.beam_search'"])%list
    /\ getattr_hook (transformers st')
       = getattr_hook (transformers (fresh_interp legacy_site))
    /\ (forall name, ~ In name ["generation"] ->
        attrs (transformers st') !! name
        = attrs (transformers (fresh_interp legacy_site)) !! name)
    /\ (forall n, In n ["generation"] ->
        loaded ("transformers." ++ n) (fresh_interp legacy_site) = false ->
        attrs (transformers st') !! n = Some (PyModule ("transformers." ++ n)))
    /\ ((forall n, In n ["generation"] ->
         loaded ("transformers." ++ n) (fresh_interp legacy_site) = true) ->
        transformers st' = transformers (fresh_interp legacy_site)).
Proof.
  apply (shim_failure_is_harmless legacy_site (fresh_interp legacy_site)
           (Exception_ "ModuleNotFoundError"
              "No module named 'transformers.generation.beam_search'")).
  reflexivity.
Defined.

(** X11: the shim changes how no other name resolves.  For every name
    besides [BeamSearchScorer], [__all__], [_patched_getattr] and
    [__getattr__] that is not a submodule loaded by the from-import, looking
    it up in [transformers] gives after the shim what it gave before,
    whether through the module's dict or through its [__getattr__]. *)
Theorem shim_leaves_other_names (site : Site) (st : interp) (name : string) :
  name <> "BeamSearchScorer" -> name <> "__all__" ->
  name <> "_patched_getattr" -> name <> "__getattr__" ->
  ~ In name (beam_search_loads site) ->
  module_getattr (transformers (snd (patch_transformers site st))) name
  = module_getattr (transformers st) name.
Proof.
  intros H1 H2 H3 H4 Hn.
  destruct (shim_result site st) as (_ & _ & Hns & _).
  destruct (import_facts "transformers" st) as (_ & Hns0 & _).
  cbv zeta in *. rewrite Hns.
  assert (Hload : module_getattr
                    (transformers
                       (snd (load_submodules (beam_search_loads site)
                               (snd (import_ "transformers" st))))) name
                  = module_getattr (transformers st) name).
  { unfold module_getattr.
    now rewrite load_submodules_attrs_other, load_submodules_hook, Hns0. }
  destruct (beam_search_BeamSearchScorer site) as [c | e]; [| exact Hload].
  now rewrite patched_ns_other_names.
Qed.

Lemma shim_leaves_other_names_witness :
  module_getattr
    (transformers (snd (patch_transformers moved_site (fresh_interp moved_site))))
    "AutoModel"
  = module_getattr (transformers (fresh_interp moved_site)) "AutoModel".
Proof.
  apply (shim_leaves_other_names moved_site (fresh_interp moved_site) "AutoModel");
    try discriminate.
  cbn. intros [H | []]. discriminate H.
Defined.

(** X12: when [__all__] is a list held in the module's dict and the class
    could be imported, then after the shim [__all__] is that list if it
    already named [BeamSearchScorer], and that list with [BeamSearchScorer]
    appended once otherwise. *)
Theorem shim_extends_all_once (site : Site) (st : interp) (c : pyobj)
    (items : list string) :
  beam_search_BeamSearchScorer site = Return c ->
  attrs (transformers st) !! "__all__" = Some (PyList items) ->
  attrs (transformers (snd (patch_transformers site st))) !! "__all__"
  = Some (PyList
            (if existsb (String.eqb "BeamSearchScorer") items then items
             else (items ++ ["BeamSearchScorer"])%list)).
Proof.
  intros Hc Hall.
  destruct (shim_result site st) as (_ & _ & Hns & _).
  destruct (import_facts "transformers" st) as (_ & Hns0 & _).
  cbv zeta in *. rewrite Hns, Hc.
  apply patched_ns_all.
  rewrite load_submodules_attrs_other by apply loads_not_all.
  now rewrite Hns0.
Qed.

Lemma shim_extends_all_once_witness :
  attrs (transformers (snd (patch_transformers moved_site (fresh_interp moved_site))))
    !! "__all__"
  = Some (PyList ["AutoModel"; "BeamSearchScorer"]).
Proof.
  apply (shim_extends_all_once moved_site (fresh_interp moved_site)
           BeamSearchScorer_class ["AutoModel"]); reflexivity.
Defined.

(** X13: running the shim a second time changes nothing in the
    [transformers] namespace: the guards at lines 18 and 22 keep [__all__]
    from getting a second entry and [__getattr__] from being wrapped
    again. *)
Theorem shim_twice_same_namespace (site : Site) (st : interp) :
  let st1 := snd (patch_transformers site st) in
  transformers (snd (patch_transformers site st1)) = transformers st1.
Proof.
  cbv zeta.
  destruct (shim_result site st) as (_ & Hsm & Hns & _).
  destruct (shim_result site (snd (patch_transformers site st)))
    as (_ & _ & Hns2 & _).
  cbv zeta in *.
  set (stF := snd (patch_transformers site st)) in *.
  destruct (import_facts "transformers" stF) as (_ & Hns0 & _ & Hmono & _).
  cbv zeta in *.
  assert (Hnoop : load_submodules (beam_search_loads site)
                    (snd (import_ "transformers" stF))
                  = (Return tt, snd (import_ "transformers" stF))).
  { apply load_submodules_noop. intros n Hn. apply Hmono.
    unfold loaded. rewrite Hsm. apply (load_submodules_loaded _ _ _ Hn). }
  rewrite Hnoop in Hns2. cbn [snd] in Hns2. rewrite Hns0 in Hns2.
  rewrite Hns2.
  destruct (beam_search_BeamSearchScorer site) as [c | e]; [| reflexivity].
  rewrite Hns. apply patched_ns_idempotent.
Qed.

End Shim.
